(** * Google integration records: the table, its policies and the server actions

    A shallow embedding of the [user_integrations] table (its UNIQUE
    constraint, its BEFORE UPDATE trigger and its row-level security
    policies), of the SQL function [upsert_google_user_integration], of the
    server actions [upsertGoogleIntegration] and [disconnectGoogleIntegration],
    of the settings page's [fetchIntegrationStatus] and
    [handleDisconnectGoogle], of the model selection hook and of the account
    settings page.

    Conventions.
    - Timestamps (TIMESTAMPTZ, JS [Date]) are milliseconds since the epoch,
      in [Z].  A JS [Date] is valid within +-8.64e15 ms; [toISOString] throws
      a RangeError outside.  Inside that range integer arithmetic on JS
      numbers is exact, so [Z] arithmetic is the code's arithmetic.  The
      database takes the text of [toISOString] only for the years 1 to 9999.
    - A token of the connect call is [string | null | undefined]: the three
      cases are kept apart ([Actions.JsString]), because an undefined
      property is left out of the body of the remote call.  A nullable column
      is an [option].
    - UUIDs are opaque; they are numbered by [N]. *)

From Stdlib Require Import ZArith NArith List Ascii String Bool Lia.
Import ListNotations.
Local Open Scope string_scope.
Local Open Scope list_scope.
Local Open Scope Z_scope.
(* ================================================================= *)
(** ** The database *)

Module Db.

Definition UUID := N.
Definition Timestamp := Z.

(** CREATE TABLE user_integrations, with the three columns added by the
    later ALTER TABLE. *)
Record Row := mkRow {
  id : UUID;
  user_id : UUID;
  provider : string;
  provider_user_id : option string;
  status : string;
  scopes : option (list string);
  provider_access_token_encrypted : option string;
  provider_refresh_token_encrypted : option string;
  token_expires_at : option Timestamp;
  created_at : Timestamp;
  updated_at : Timestamp
}.

Definition Table := list Row.

Inductive DbResult (A : Type) :=
| DbOk (a : A)
| DbError (message : string).
Arguments DbOk {A} a.
Arguments DbError {A} message.

(** [auth.uid()]: the subject of the request's JWT, NULL when anonymous.
    [auth.uid() = user_id] is NULL, hence not satisfied, for an anonymous
    request. *)
Definition auth_uid_eq (auth : option UUID) (u : UUID) : bool :=
  match auth with
  | Some a => N.eqb a u
  | None => false
  end.

(** The four policies of the table. *)
Definition policy_select_using (auth : option UUID) (r : Row) : bool :=
  auth_uid_eq auth (user_id r).
Definition policy_insert_check (auth : option UUID) (r : Row) : bool :=
  auth_uid_eq auth (user_id r).
Definition policy_update_using (auth : option UUID) (r : Row) : bool :=
  auth_uid_eq auth (user_id r).
Definition policy_update_check (auth : option UUID) (r : Row) : bool :=
  auth_uid_eq auth (user_id r).
Definition policy_delete_using (auth : option UUID) (r : Row) : bool :=
  auth_uid_eq auth (user_id r).

(** The double quote. *)
Definition dq : string := String (ascii_of_nat 34) EmptyString.

Definition quoted (s : string) : string := (dq ++ s ++ dq)%string.

(** The messages of the database for a failed WITH CHECK, a failed USING
    on the ON CONFLICT path, and a duplicate key. *)
Definition rls_violation : string :=
  ("new row violates row-level security policy for table "
   ++ quoted "user_integrations")%string.
Definition rls_using_violation : string :=
  ("new row violates row-level security policy (USING expression) for table "
   ++ quoted "user_integrations")%string.
Definition unique_violation : string :=
  ("duplicate key value violates unique constraint "
   ++ quoted "user_integrations_user_id_provider_key")%string.

(** The conflict target of UNIQUE (user_id, provider). *)
Definition same_key (u : UUID) (p : string) (r : Row) : bool :=
  N.eqb (user_id r) u && String.eqb (provider r) p.

Fixpoint unique_user_provider (t : Table) : bool :=
  match t with
  | [] => true
  | r :: t' =>
      negb (existsb (same_key (user_id r) (provider r)) t')
      && unique_user_provider t'
  end.

(** trigger_set_timestamp, fired BEFORE UPDATE FOR EACH ROW. *)
Definition trigger_set_timestamp (now : Timestamp) (new : Row) : Row :=
  mkRow (id new) (user_id new) (provider new) (provider_user_id new)
        (status new) (scopes new)
        (provider_access_token_encrypted new)
        (provider_refresh_token_encrypted new)
        (token_expires_at new) (created_at new) now.

(** SELECT ... WHERE w: the rows the SELECT policy shows and [w] keeps. *)
Definition select_rows (auth : option UUID) (w : Row -> bool) (t : Table)
  : list Row :=
  filter (fun r => policy_select_using auth r && w r) t.

(** UPDATE ... SET s WHERE w.  Rows hidden by the USING policy are skipped
    silently.  The rows are taken one after the other: the trigger runs on
    the new row, then WITH CHECK is tested on it, then the unique index,
    against the rows as they are at that moment (those before already
    updated, those after not yet).  The first failure aborts the statement. *)
Definition update_target (auth : option UUID) (w : Row -> bool) (r : Row)
  : bool :=
  policy_update_using auth r && w r.

Definition update_row (auth : option UUID) (now : Timestamp)
  (w : Row -> bool) (s : Row -> Row) (r : Row) : Row :=
  if update_target auth w r then trigger_set_timestamp now (s r) else r.

Fixpoint update_from (auth : option UUID) (now : Timestamp)
  (w : Row -> bool) (s : Row -> Row) (before todo : Table) : DbResult Table :=
  match todo with
  | [] => DbOk []
  | r :: rest =>
      let r' := update_row auth now w s r in
      if update_target auth w r && negb (policy_update_check auth r')
      then DbError rls_violation
      else if update_target auth w r
              && existsb (same_key (user_id r') (provider r')) (before ++ rest)
      then DbError unique_violation
      else
        match update_from auth now w s (before ++ [r']) rest with
        | DbOk rest' => DbOk (r' :: rest')
        | DbError m => DbError m
        end
  end.

Definition update_rows (auth : option UUID) (now : Timestamp)
  (w : Row -> bool) (s : Row -> Row) (t : Table) : DbResult Table :=
  update_from auth now w s [] t.

(** DELETE ... WHERE w. *)
Definition delete_rows (auth : option UUID) (w : Row -> bool) (t : Table)
  : Table :=
  filter (fun r => negb (policy_delete_using auth r && w r)) t.

(** The DO UPDATE SET list of the upsert: every listed column is taken from
    EXCLUDED; [id], [user_id], [provider] and [created_at] are kept. *)
Definition do_update_set (excluded : Row) (old : Row) : Row :=
  mkRow (id old) (user_id old) (provider old)
        (provider_user_id excluded)
        (status excluded)
        (scopes excluded)
        (provider_access_token_encrypted excluded)
        (provider_refresh_token_encrypted excluded)
        (token_expires_at excluded)
        (created_at old)
        (updated_at excluded).

(** ON CONFLICT (user_id, provider) DO UPDATE, on one row of the table: the
    conflicting row is rewritten (and the BEFORE UPDATE trigger fires on
    it), every other row is left as it is. *)
Definition on_conflict_do_update (now : Timestamp) (excluded : Row)
  (conflict : Row -> bool) (r : Row) : Row :=
  if conflict r
  then trigger_set_timestamp now (do_update_set excluded r)
  else r.

(** upsert_google_user_integration (SECURITY INVOKER, so the policies apply).
    [new_id] is the value of gen_random_uuid() and [now] the value of NOW()
    for the statement.  Returns the affected rows (RETURNING * ) and the
    new table. *)
Definition upsert_google_user_integration
  (auth : option UUID) (now : Timestamp) (new_id : UUID)
  (p_user_id : UUID) (p_provider_user_id : option string)
  (p_scopes : option (list string))
  (p_encrypted_access_token p_encrypted_refresh_token : option string)
  (p_token_expires_at : option Timestamp)
  (t : Table) : DbResult (list Row * Table) :=
  let proposed :=
    mkRow new_id p_user_id "google" p_provider_user_id "connected" p_scopes
          p_encrypted_access_token p_encrypted_refresh_token
          p_token_expires_at now now in
  if negb (policy_insert_check auth proposed) then DbError rls_violation
  else if existsb (same_key p_user_id "google") t then
    let conflict := same_key p_user_id "google" in
    if forallb (fun r => policy_update_using auth r || negb (conflict r)) t
    then
      let t' := map (on_conflict_do_update now proposed conflict) t in
      DbOk (filter conflict t', t')
    else DbError rls_using_violation
  else DbOk ([proposed], t ++ [proposed]).

(** A request to the table, as the clients issue them. *)
Inductive Stmt :=
| SSelect (w : Row -> bool)
| SUpdate (w : Row -> bool) (s : Row -> Row)
| SDelete (w : Row -> bool)
| SUpsertGoogle (p_user_id : UUID) (p_provider_user_id : option string)
    (p_scopes : option (list string))
    (p_encrypted_access_token p_encrypted_refresh_token : option string)
    (p_token_expires_at : option Timestamp).

(** Runs one request for the caller [auth]: the rows sent back to the caller
    (or the error) and the table afterwards. *)
Definition exec (auth : option UUID) (now : Timestamp) (new_id : UUID)
  (q : Stmt) (t : Table) : DbResult (list Row) * Table :=
  match q with
  | SSelect w => (DbOk (select_rows auth w t), t)
  | SUpdate w s =>
      match update_rows auth now w s t with
      | DbOk t' => (DbOk [], t')
      | DbError m => (DbError m, t)
      end
  | SDelete w => (DbOk [], delete_rows auth w t)
  | SUpsertGoogle u pu sc a rf ex =>
      match upsert_google_user_integration auth now new_id u pu sc a rf ex t with
      | DbOk (rows, t') => (DbOk rows, t')
      | DbError m => (DbError m, t)
      end
  end.

(** A SET list that assigns neither [user_id] nor [provider]. *)
Definition keeps_key (f : Row -> Row) : Prop :=
  forall r, user_id (f r) = user_id r /\ provider (f r) = provider r.

(** The filters of the query builder. *)
Definition eq_user_id (u : UUID) (r : Row) : bool := N.eqb (user_id r) u.
Definition eq_provider (p : string) (r : Row) : bool := String.eqb (provider r) p.

End Db.
(* ================================================================= *)
(** ** The world the actions run in *)

Module Actions.

(** What a call does to the outside: requests to the database, cache
    revalidation, and a POST to the provider's token endpoint, which no code
    of the repository makes. *)
Inductive Effect :=
| EffSelect (table : string)
| EffUpdate (table : string)
| EffRpc (fn : string)
| EffRevalidatePath (path : string)
| EffProviderTokenRequest.

Record World := mkWorld {
  db : Db.Table;
  effects : list Effect
}.

(** supabase.auth.getUser(): [{ data: { user }, error: userError }].  The
    same JWT gives the database its auth.uid(). *)
Record Session := mkSession {
  user : option Db.UUID;
  userError : option string
}.

(** What one call reads from its surroundings: the session of the client
    made by createClient(), Date.now() of the process, and for its database
    statement NOW() and gen_random_uuid(). *)
Record Env := mkEnv {
  session : Session;
  date_now : Db.Timestamp;
  db_now : Db.Timestamp;
  fresh_uuid : Db.UUID
}.

Definition M (A : Type) : Type := World -> A * World.

Definition ret {A : Type} (a : A) : M A := fun w => (a, w).

Definition bind {A B : Type} (c : M A) (k : A -> M B) : M B :=
  fun w => let (a, w') := c w in k a w'.

Notation "x <- c ;; k" := (bind c (fun x => k))
  (at level 61, c at next level, right associativity).
Notation "c ;;; k" := (bind c (fun _ => k))
  (at level 61, right associativity).

Definition emit (e : Effect) : M unit :=
  fun w => (tt, mkWorld (db w) (effects w ++ [e])).

(** One request of the supabase client: logged, then run by the database
    under the session's auth.uid(). *)
Definition request (env : Env) (e : Effect) (q : Db.Stmt)
  : M (Db.DbResult (list Db.Row)) :=
  emit e ;;;
  fun w =>
    let (res, t') :=
      Db.exec (user (session env)) (db_now env) (fresh_uuid env) q (db w) in
    (res, mkWorld t' (effects w)).

(** A Date is valid within 8.64e15 ms of the epoch. *)
Definition date_valid (ms : Z) : bool := Z.abs ms <=? 8640000000000000.

(** A JS string used as a condition. *)
Definition truthy (s : option string) : bool :=
  match s with
  | Some s => negb (String.eqb s "")
  | None => false
  end.

(** A property of type [string | null | undefined]. *)
Inductive JsString :=
| js_undefined
| js_null
| js_string (s : string).

(** The argument of connect.  Both tokens are optional and nullable.
    [expires_in] is only tested for truthiness, which [undefined] and [null]
    fail alike: both are [None]. *)
Module GoogleIntegrationData.
Record t := mk {
  provider_access_token : JsString;
  provider_refresh_token : JsString;
  expires_in : option Z;
  scopes : list string;
  provider_user_id : string
}.
End GoogleIntegrationData.

(** What a server action hands back: [{ error }], [{ success: true, data }]
    ([data] absent for disconnect), or an exception. *)
Inductive ActionResult :=
| ActionError (error : string)
| ActionSuccess (data : option Db.Row)
| ActionThrows (exn : string).

Definition tokenExpiresAt (env : Env) (expires_in : option Z)
  : option Db.Timestamp :=
  match expires_in with
  | Some n => if n =? 0 then None else Some (date_now env + n * 1000)
  | None => None
  end.

(** *** Date.prototype.toISOString *)

(** Year, month and day of the day numbered [z0] from 1970-01-01, in the
    proleptic Gregorian calendar. *)
Definition civil_from_days (z0 : Z) : Z * Z * Z :=
  let z := z0 + 719468 in
  let era := z / 146097 in
  let doe := z - era * 146097 in
  let yoe := (doe - doe / 1460 + doe / 36524 - doe / 146096) / 365 in
  let y := yoe + era * 400 in
  let doy := doe - (365 * yoe + yoe / 4 - yoe / 100) in
  let mp := (5 * doy + 2) / 153 in
  let d := doy - (153 * mp + 2) / 5 + 1 in
  let m := if mp <? 10 then mp + 3 else mp - 9 in
  (if m <=? 2 then y + 1 else y, m, d).

Definition utc_year (ms : Z) : Z :=
  fst (fst (civil_from_days (ms / 86400000))).

(** The last [width] decimal digits of [z]. *)
Fixpoint pad (width : nat) (z : Z) : string :=
  match width with
  | O => EmptyString
  | S w =>
      (pad w (z / 10)
       ++ String (ascii_of_nat (48 + Z.to_nat (z mod 10))) EmptyString)%string
  end.

(** The text for a valid Date: YYYY-MM-DDTHH:mm:ss.sssZ, and for a year
    outside 0..9999 the sign and six digits for the year. *)
Definition iso_text (ms : Z) : string :=
  let '(y, m, d) := civil_from_days (ms / 86400000) in
  let t := ms mod 86400000 in
  let year :=
    if (0 <=? y) && (y <=? 9999) then pad 4 y
    else ((if (y <? 0)%Z then "-" else "+") ++ pad 6 (Z.abs y))%string in
  (year ++ "-" ++ pad 2 m ++ "-" ++ pad 2 d
   ++ "T" ++ pad 2 (t / 3600000) ++ ":" ++ pad 2 (t / 60000 mod 60)
   ++ ":" ++ pad 2 (t / 1000 mod 60) ++ "." ++ pad 3 (t mod 1000) ++ "Z")%string.

(** [None] is the RangeError of an invalid Date. *)
Definition toISOString (ms : Z) : option string :=
  if date_valid ms then Some (iso_text ms) else None.

(** tokenExpiresAt ? tokenExpiresAt.toISOString() : null.  The Date is
    kept beside its text. *)
Definition toISOString_opt (d : option Db.Timestamp)
  : option (option Db.Timestamp) :=
  match d with
  | Some ms =>
      match toISOString ms with
      | Some _ => Some (Some ms)
      | None => None
      end
  | None => Some None
  end.

(** *** supabase.rpc('upsert_google_user_integration', ...) *)

(** What the TIMESTAMPTZ parameter makes of the text of [toISOString ms]:
    the plain four-digit years 0001 to 9999 are read back as the same
    instant; the year 0000 is out of range, and a signed six-digit year is
    not a timestamp the database can read. *)
Definition timestamptz_in (ms : Z) : Db.DbResult Db.Timestamp :=
  let y := utc_year ms in
  if (1 <=? y) && (y <=? 9999) then Db.DbOk ms
  else if y =? 0
  then Db.DbError ("date/time field value out of range: "
                   ++ Db.quoted (iso_text ms))%string
  else Db.DbError ("invalid input syntax for type timestamp with time zone: "
                   ++ Db.quoted (iso_text ms))%string.

Definition timestamptz_opt_in (d : option Db.Timestamp)
  : Db.DbResult (option Db.Timestamp) :=
  match d with
  | None => Db.DbOk None
  | Some ms =>
      match timestamptz_in ms with
      | Db.DbOk ts => Db.DbOk (Some ts)
      | Db.DbError m => Db.DbError m
      end
  end.

Definition is_undefined (v : JsString) : bool :=
  match v with
  | js_undefined => true
  | _ => false
  end.

(** A token that is in the body, as the TEXT argument it becomes. *)
Definition text_argument (v : JsString) : option string :=
  match v with
  | js_string s => Some s
  | _ => None
  end.

Fixpoint join (sep : string) (l : list string) : string :=
  match l with
  | [] => EmptyString
  | [x] => x
  | x :: l' => (x ++ sep ++ join sep l')%string
  end.

(** The names in the body of the call: JSON leaves undefined properties
    out.  In alphabetical order, as the error message lists them. *)
Definition argument_keys (access refresh : JsString) : list string :=
  (if is_undefined access then [] else ["p_encrypted_access_token"])
  ++ (if is_undefined refresh then [] else ["p_encrypted_refresh_token"])
  ++ ["p_provider_user_id"; "p_scopes"; "p_token_expires_at"; "p_user_id"].

Definition function_not_found (keys : list string) : string :=
  ("Could not find the function public.upsert_google_user_integration("
   ++ join ", " keys ++ ") in the schema cache")%string.

(** The remote call.  The function has no default for any argument, so a
    body that lacks one names no function; then the timestamp text is read;
    then the function runs under the session's auth.uid(). *)
Definition rpc_upsert_google_user_integration (env : Env)
  (p_user_id : Db.UUID) (p_provider_user_id : string) (p_scopes : list string)
  (p_encrypted_access_token p_encrypted_refresh_token : JsString)
  (p_token_expires_at : option Db.Timestamp)
  : M (Db.DbResult (list Db.Row)) :=
  if is_undefined p_encrypted_access_token
     || is_undefined p_encrypted_refresh_token
  then
    emit (EffRpc "upsert_google_user_integration") ;;;
    ret (Db.DbError
           (function_not_found
              (argument_keys p_encrypted_access_token
                 p_encrypted_refresh_token)))
  else
    match timestamptz_opt_in p_token_expires_at with
    | Db.DbError m =>
        emit (EffRpc "upsert_google_user_integration") ;;;
        ret (Db.DbError m)
    | Db.DbOk expires =>
        request env (EffRpc "upsert_google_user_integration")
          (Db.SUpsertGoogle p_user_id (Some p_provider_user_id)
             (Some p_scopes)
             (text_argument p_encrypted_access_token)
             (text_argument p_encrypted_refresh_token)
             expires)
    end.

Definition upsertGoogleIntegration (env : Env) (data : GoogleIntegrationData.t)
  : M ActionResult :=
  match userError (session env), user (session env) with
  | None, Some u =>
      let directAccessToken := GoogleIntegrationData.provider_access_token data in
      let directRefreshToken := GoogleIntegrationData.provider_refresh_token data in
      match toISOString_opt
              (tokenExpiresAt env (GoogleIntegrationData.expires_in data)) with
      | None => ret (ActionThrows "RangeError: Invalid time value")
      | Some p_token_expires_at =>
          r <- rpc_upsert_google_user_integration env u
                 (GoogleIntegrationData.provider_user_id data)
                 (GoogleIntegrationData.scopes data)
                 directAccessToken directRefreshToken
                 p_token_expires_at ;;
          match r with
          | Db.DbError m => ret (ActionError m)
          | Db.DbOk rows =>
              emit (EffRevalidatePath "/settings/integrations") ;;;
              ret (ActionSuccess (hd_error rows))
          end
      end
  | _, _ => ret (ActionError "User not authenticated")
  end.

(** The object given to .update(...) by disconnect. *)
Definition disconnect_set (iso_now : Db.Timestamp) (r : Db.Row) : Db.Row :=
  Db.mkRow (Db.id r) (Db.user_id r) (Db.provider r)
           None "disconnected" None None None None
           (Db.created_at r) iso_now.

(** .eq('user_id', user.id).eq('provider', 'google') *)
Definition disconnect_where (u : Db.UUID) (r : Db.Row) : bool :=
  Db.eq_user_id u r && Db.eq_provider "google" r.

Definition disconnectGoogleIntegration (env : Env) : M ActionResult :=
  match userError (session env), user (session env) with
  | None, Some u =>
      r <- request env (EffUpdate "user_integrations")
             (Db.SUpdate (disconnect_where u)
                (disconnect_set (date_now env))) ;;
      match r with
      | Db.DbError m => ret (ActionError m)
      | Db.DbOk _ =>
          emit (EffRevalidatePath "/settings/integrations") ;;;
          ret (ActionSuccess None)
      end
  | _, _ => ret (ActionError "User not authenticated")
  end.

(** .maybeSingle(): no row is [null] without error. *)
Definition maybeSingle (rows : Db.DbResult (list Db.Row))
  : Db.DbResult (option Db.Row) :=
  match rows with
  | Db.DbOk [] => Db.DbOk None
  | Db.DbOk [r] => Db.DbOk (Some r)
  | Db.DbOk _ => Db.DbError "JSON object requested, multiple (or no) rows returned"
  | Db.DbError m => Db.DbError m
  end.

End Actions.
(* ================================================================= *)
(** ** The settings page *)

Module Page.

Record IntegrationStatus := mkStatus {
  provider : string;
  connected : bool;
  scopes : option (list string);
  lastChecked : option Db.Timestamp
}.

(** The React state the page keeps. *)
Record State := mkState {
  googleIntegration : option IntegrationStatus;
  isLoading : bool;
  actionError : option string
}.

Definition setGoogleIntegration (g : option IntegrationStatus) (st : State) :=
  mkState g (isLoading st) (actionError st).
Definition setIsLoading (b : bool) (st : State) :=
  mkState (googleIntegration st) b (actionError st).
Definition setActionError (e : option string) (st : State) :=
  mkState (googleIntegration st) (isLoading st) e.

(** fetchIntegrationStatus: reads status and scopes of the user's google
    row; [Actions.date_now] is the [new Date()] of lastChecked. *)
Definition fetchIntegrationStatus (env : Actions.Env) (user : option Db.UUID)
  (st : State) : Actions.M State :=
  match user with
  | None =>
      Actions.ret (setIsLoading false (setGoogleIntegration None st))
  | Some uid =>
      Actions.bind
        (Actions.request env (Actions.EffSelect "user_integrations")
           (Db.SSelect (fun r => Db.eq_user_id uid r
                                 && Db.eq_provider "google" r)))
        (fun rows =>
           match Actions.maybeSingle rows with
           | Db.DbError m =>
               Actions.ret
                 (setIsLoading false
                    (setGoogleIntegration
                       (Some (mkStatus "google" false None None))
                       (setActionError
                          (Some ("Failed to load integration status: " ++ m)%string)
                          st)))
           | Db.DbOk (Some data) =>
               Actions.ret
                 (setIsLoading false
                    (setGoogleIntegration
                       (Some (mkStatus "google"
                                (String.eqb (Db.status data) "connected")
                                (Db.scopes data)
                                (Some (Actions.date_now env))))
                       st))
           | Db.DbOk None =>
               Actions.ret
                 (setIsLoading false
                    (setGoogleIntegration
                       (Some (mkStatus "google" false None
                                (Some (Actions.date_now env))))
                       st))
           end)
  end.

End Page.
(* ================================================================= *)
(** ** Histories of lifecycle calls *)

Module Lifecycle.

Import Actions.

(** The two mutations the code has: connect and disconnect, each with the
    surroundings it ran in. *)
Inductive Call :=
| CallConnect (env : Env) (data : GoogleIntegrationData.t)
| CallDisconnect (env : Env).

Definition call_env (c : Call) : Env :=
  match c with
  | CallConnect env _ => env
  | CallDisconnect env => env
  end.

Definition call (c : Call) : M ActionResult :=
  match c with
  | CallConnect env data => upsertGoogleIntegration env data
  | CallDisconnect env => disconnectGoogleIntegration env
  end.


Fixpoint run (cs : list Call) : M (list ActionResult) :=
  match cs with
  | [] => ret []
  | c :: cs' =>
      r <- call c ;;
      rs <- run cs' ;;
      ret (r :: rs)
  end.

Definition table_after (cs : list Call) (w : World) : Db.Table :=
  db (snd (run cs w)).





(** The expiry a connect call computes is absent, or a Date whose text the
    database reads: one of the years 1 to 9999. *)
Definition expiry_storable (env : Env) (data : GoogleIntegrationData.t)
  : bool :=
  match tokenExpiresAt env (GoogleIntegrationData.expires_in data) with
  | Some ms => date_valid ms && ((1 <=? utc_year ms) && (utc_year ms <=? 9999))
  | None => true
  end.

(** The arguments of a connect call are ones the remote call takes: both
    token properties are there, each a string or null, and the expiry can be
    stored. *)
Definition connect_accepted (env : Env) (data : GoogleIntegrationData.t)
  : bool :=
  negb (is_undefined (GoogleIntegrationData.provider_access_token data))
  && negb (is_undefined (GoogleIntegrationData.provider_refresh_token data))
  && expiry_storable env data.


(** The session of a signed-in user. *)
Definition signed_in (env : Env) (u : Db.UUID) : Prop :=
  session env = mkSession (Some u) None.

(** The columns a write assigns. *)
Definition written_columns (r : Db.Row) :=
  (Db.provider_user_id r, Db.status r, Db.scopes r,
   Db.provider_access_token_encrypted r,
   Db.provider_refresh_token_encrypted r,
   Db.token_expires_at r, Db.updated_at r).

(** A row as a connect call with [data] in [env] leaves it. *)
Definition connected_with (env : Env) (data : GoogleIntegrationData.t)
  (r : Db.Row) : Prop :=
  Db.provider_user_id r = Some (GoogleIntegrationData.provider_user_id data)
  /\ Db.status r = "connected"
  /\ Db.scopes r = Some (GoogleIntegrationData.scopes data)
  /\ Db.provider_access_token_encrypted r
     = text_argument (GoogleIntegrationData.provider_access_token data)
  /\ Db.provider_refresh_token_encrypted r
     = text_argument (GoogleIntegrationData.provider_refresh_token data)
  /\ Db.token_expires_at r
     = tokenExpiresAt env (GoogleIntegrationData.expires_in data).

(** A row as disconnect leaves it. *)
Definition cleared (r : Db.Row) : Prop :=
  Db.status r = "disconnected"
  /\ Db.scopes r = None
  /\ Db.provider_access_token_encrypted r = None
  /\ Db.provider_refresh_token_encrypted r = None
  /\ Db.token_expires_at r = None
  /\ Db.provider_user_id r = None.

(** A row as call [c] writes it. *)
Definition written_by (c : Call) (r : Db.Row) : Prop :=
  Db.updated_at r = db_now (call_env c)
  /\ match c with
     | CallConnect env data => connected_with env data r
     | CallDisconnect _ => cleared r
     end.






End Lifecycle.
(* ================================================================= *)
(** ** The handlers of the integrations page *)

Module Integrations.

Import Actions.

Definition GOOGLE_SCOPES : list string :=
  [ "openid";
    "https://www.googleapis.com/auth/userinfo.email";
    "https://www.googleapis.com/auth/userinfo.profile";
    "https://www.googleapis.com/auth/calendar";
    "https://www.googleapis.com/auth/drive";
    "https://www.googleapis.com/auth/gmail.modify" ].

(** What is left of [s] after the leading [pat], when [s] starts with it. *)
Fixpoint strip_prefix (pat s : string) : option string :=
  match pat, s with
  | EmptyString, _ => Some s
  | String a pat', String b s' =>
      if Ascii.eqb a b then strip_prefix pat' s' else None
  | String _ _, EmptyString => None
  end.

(** String.prototype.replace with a string pattern: the first occurrence
    only.  The page's replacement is the empty string, so the replacement's
    dollar patterns do not arise. *)
Fixpoint replace (pat rep s : string) : string :=
  match strip_prefix pat s with
  | Some rest => (rep ++ rest)%string
  | None =>
      match s with
      | EmptyString => EmptyString
      | String c s' => String c (replace pat rep s')
      end
  end.

(** The label shown for a granted scope. *)
Definition shortScope (scope : string) : string :=
  let shortScope := replace "https://www.googleapis.com/auth/" "" scope in
  let shortScope := replace "userinfo." "" shortScope in
  if String.eqb scope "openid" then "OpenID (Basic Login)" else shortScope.

(** The page's state: what [Page.State] holds, and with it the signed-in
    user and the processing flag. *)
Record PageState := mkPageState {
  base : Page.State;
  currentUser : option Db.UUID;
  isProcessing : bool
}.

Definition setBase (b : Page.State) (st : PageState) : PageState :=
  mkPageState b (currentUser st) (isProcessing st).
Definition setIsProcessing (b : bool) (st : PageState) : PageState :=
  mkPageState (base st) (currentUser st) b.
Definition setActionError (e : option string) (st : PageState) : PageState :=
  setBase (Page.setActionError e (base st)) st.

(** [result.error] of what a server action handed back. *)
Definition result_error (result : ActionResult) : option string :=
  match result with
  | ActionError e => Some e
  | _ => None
  end.

(** handleDisconnectGoogle.  The server action runs in [server], the
    status query of the browser's client in [client].  A server action that
    throws leaves the handler before setIsProcessing(false). *)
Definition handleDisconnectGoogle (server client : Env) (st : PageState)
  : M PageState :=
  match currentUser st with
  | None => ret (setActionError (Some "User not found.") st)
  | Some u =>
      let st := setActionError None (setIsProcessing true st) in
      result <- disconnectGoogleIntegration server ;;
      match result with
      | ActionThrows _ => ret st
      | _ =>
          if truthy (result_error result)
          then
            ret (setIsProcessing false
                   (setActionError
                      (Some ("Failed to disconnect: "
                             ++ match result_error result with
                                | Some e => e
                                | None => ""
                                end)%string) st))
          else
            b <- Page.fetchIntegrationStatus client (Some u) (base st) ;;
            ret (setIsProcessing false (setBase b st))
      end
  end.

End Integrations.
(* ================================================================= *)
(** ** The model selection hook *)

Module ModelSelection.

Definition STORAGE_KEY_MODEL : string := "suna-preferred-model".
Definition DEFAULT_FREE_MODEL_ID : string := "gpt-4.1-mini".
Definition DEFAULT_PREMIUM_MODEL_ID : string := "sonnet-3.7".

Inductive SubscriptionStatus := no_subscription | active.

Record ModelOption := mkModelOption {
  id : string;
  label : string;
  requiresSubscription : bool;
  description : option string
}.

Definition MODEL_OPTIONS : list ModelOption :=
  [ mkModelOption "gpt-4.1-mini" "GPT-4.1-Mini" false
      (Some "Limited capabilities. Upgrade for full performance.");
    mkModelOption "sonnet-3.7" "Claude 3.7 Sonnet" false
      (Some "Excellent for complex tasks and nuanced conversations");
    mkModelOption "gpt-4o-mini" "GPT-4o-Mini" false None;
    mkModelOption "gpt-4o" "GPT-4o" false None ].

Definition is_active (s : SubscriptionStatus) : bool :=
  match s with
  | active => true
  | no_subscription => false
  end.

Definition canAccessModel (subscriptionStatus : SubscriptionStatus)
  (requiresSubscription : bool) : bool :=
  is_active subscriptionStatus || negb requiresSubscription.

(** MODEL_OPTIONS.find(option => option.id === modelId) *)
Definition find_option (modelId : string) : option ModelOption :=
  find (fun o => String.eqb (id o) modelId) MODEL_OPTIONS.

(** modelOption && canAccessModel(subscriptionStatus,
    modelOption.requiresSubscription): the test of the effect and of
    handleModelChange, and the [canAccessModel] the hook returns. *)
Definition canAccessModelId (subscriptionStatus : SubscriptionStatus)
  (modelId : string) : bool :=
  match find_option modelId with
  | Some model => canAccessModel subscriptionStatus (requiresSubscription model)
  | None => false
  end.

Definition isSubscriptionRequired (modelId : string) : bool :=
  match find_option modelId with
  | Some model => requiresSubscription model
  | None => false
  end.

Definition availableModels (subscriptionStatus : SubscriptionStatus)
  : list ModelOption :=
  filter (fun model => canAccessModel subscriptionStatus (requiresSubscription model))
         MODEL_OPTIONS.

(** window.localStorage: its items, whether access to it is denied (every
    operation throws) and whether its quota is used up (setItem throws). *)
Record LocalStorage := mkStorage {
  items : list (string * string);
  denied : bool;
  full : bool
}.

Definition other_key (k : string) (kv : string * string) : bool :=
  negb (String.eqb (fst kv) k).

(** [None] is a thrown exception. *)
Definition getItem (k : string) (s : LocalStorage) : option (option string) :=
  if denied s then None
  else Some (option_map snd (find (fun kv => String.eqb (fst kv) k) (items s))).

Definition setItem (k v : string) (s : LocalStorage) : option LocalStorage :=
  if denied s || full s then None
  else Some (mkStorage ((k, v) :: filter (other_key k) (items s))
                       (denied s) (full s)).

Definition removeItem (k : string) (s : LocalStorage) : option LocalStorage :=
  if denied s then None
  else Some (mkStorage (filter (other_key k) (items s)) (denied s) (full s)).

(** try { localStorage.setItem(k, v) } catch { console.warn(...) } *)
Definition try_setItem (k v : string) (s : LocalStorage) : LocalStorage :=
  match setItem k v s with
  | Some s' => s'
  | None => s
  end.

Record Hook := mkHook {
  selectedModel : string;
  localStorage : LocalStorage
}.

(** The effect of useModelSelection, run when subscriptionStatus changes;
    [window_defined] is typeof window !== 'undefined'. *)
Definition restore_effect (window_defined : bool)
  (subscriptionStatus : SubscriptionStatus) (h : Hook) : Hook :=
  if negb window_defined then h
  else
    match getItem STORAGE_KEY_MODEL (localStorage h) with
    | None => h
    | Some savedModel =>
        let usable :=
          match savedModel with
          | Some m => Actions.truthy savedModel
                      && canAccessModelId subscriptionStatus m
          | None => false
          end in
        if is_active subscriptionStatus then
          match savedModel with
          | Some m =>
              if usable then mkHook m (localStorage h)
              else mkHook DEFAULT_PREMIUM_MODEL_ID
                     (try_setItem STORAGE_KEY_MODEL DEFAULT_PREMIUM_MODEL_ID
                        (localStorage h))
          | None =>
              mkHook DEFAULT_PREMIUM_MODEL_ID
                (try_setItem STORAGE_KEY_MODEL DEFAULT_PREMIUM_MODEL_ID
                   (localStorage h))
          end
        else if Actions.truthy savedModel then
          match savedModel with
          | Some m =>
              if usable then mkHook m (localStorage h)
              else
                match removeItem STORAGE_KEY_MODEL (localStorage h) with
                | Some s' => mkHook DEFAULT_FREE_MODEL_ID s'
                | None => h
                end
          | None => h
          end
        else mkHook DEFAULT_FREE_MODEL_ID (localStorage h)
    end.

Definition handleModelChange (subscriptionStatus : SubscriptionStatus)
  (modelId : string) (h : Hook) : Hook :=
  if negb (canAccessModelId subscriptionStatus modelId) then h
  else mkHook modelId (try_setItem STORAGE_KEY_MODEL modelId (localStorage h)).

End ModelSelection.
(* ================================================================= *)
(** ** The account settings page *)

Module AccountSettings.

Record UserMetadata := mkMetadata {
  name : option string;
  avatar_url : option string
}.

Record AuthUser := mkAuthUser {
  email : option string;
  user_metadata : option UserMetadata
}.

(** The [user] state of the page. *)
Record Shown := mkShown {
  shown_name : string;
  shown_email : string;
  shown_avatar : string
}.

Definition initial : Shown := mkShown "Loading..." "loading@example.com" "".

(** [a || b] on strings that may be absent. *)
Definition or_else (a : option string) (b : string) : string :=
  match a with
  | Some s => if Actions.truthy a then s else b
  | None => b
  end.

(** [s.split('@')[0]]: what comes before the first '@', all of [s] when it
    has none. *)
Fixpoint before_at (s : string) : string :=
  match s with
  | EmptyString => EmptyString
  | String c s' =>
      if Ascii.eqb c "@"%char then EmptyString else String c (before_at s')
  end.

(** fetchUserData, given the [data.user] that getUser answered. *)
Definition fetchUserData (data_user : option AuthUser) (st : Shown) : Shown :=
  match data_user with
  | None => st
  | Some u =>
      let meta_name :=
        match user_metadata u with Some m => name m | None => None end in
      let meta_avatar :=
        match user_metadata u with Some m => avatar_url m | None => None end in
      mkShown
        (or_else meta_name
           (or_else (option_map before_at (email u)) "User"))
        (or_else (email u) "")
        (or_else meta_avatar "")
  end.

End AccountSettings.
(* ================================================================= *)
(** ** Readings used by the further properties *)

Module Readings.

(** [r'] is the record [r], with the columns no write assigns unchanged. *)
Definition same_identity (r r' : Db.Row) : Prop :=
  Db.id r' = Db.id r
  /\ Db.user_id r' = Db.user_id r
  /\ Db.provider r' = Db.provider r
  /\ Db.created_at r' = Db.created_at r.


(** [s] holds no '@'. *)
Fixpoint has_no_at (s : string) : bool :=
  match s with
  | EmptyString => true
  | String c s' => negb (Ascii.eqb c "@"%char) && has_no_at s'
  end.

End Readings.
(* ================================================================= *)
(** ** Facts about the table *)

Module DbFacts.

Import Db.

Lemma same_key_iff (u : UUID) (p : string) (r : Row) :
  same_key u p r = true <-> user_id r = u /\ provider r = p.
Proof.
  unfold same_key. rewrite andb_true_iff, N.eqb_eq, String.eqb_eq. tauto.
Qed.

Lemma auth_uid_eq_iff (auth : option UUID) (u : UUID) :
  auth_uid_eq auth u = true <-> auth = Some u.
Proof.
  destruct auth as [a|]; simpl.
  - rewrite N.eqb_eq. split; [intros ->; reflexivity | congruence].
  - split; discriminate.
Qed.

Lemma same_key_keeps (f : Row -> Row) (u : UUID) (p : string) (r : Row) :
  keeps_key f -> same_key u p (f r) = same_key u p r.
Proof.
  intros H. unfold same_key. destruct (H r) as [-> ->]. reflexivity.
Qed.

Lemma existsb_false_filter {A : Type} (f : A -> bool) (l : list A) :
  existsb f l = false -> filter f l = [].
Proof.
  induction l as [|a l IH]; simpl; [reflexivity|].
  intros H. apply orb_false_iff in H as [Ha Hl].
  rewrite Ha. auto.
Qed.

Lemma filter_nil_existsb {A : Type} (f : A -> bool) (l : list A) :
  filter f l = [] -> existsb f l = false.
Proof.
  induction l as [|a l IH]; simpl; [reflexivity|].
  destruct (f a); [discriminate | auto].
Qed.

Lemma existsb_map_keeps (f : Row -> Row) (u : UUID) (p : string) (t : Table) :
  keeps_key f ->
  existsb (same_key u p) (map f t) = existsb (same_key u p) t.
Proof.
  intros H. induction t as [|r t IH]; simpl; [reflexivity|].
  rewrite (same_key_keeps f u p r H), IH. reflexivity.
Qed.

Lemma unique_map_keeps (f : Row -> Row) (t : Table) :
  keeps_key f ->
  unique_user_provider (map f t) = unique_user_provider t.
Proof.
  intros H. induction t as [|r t IH]; simpl; [reflexivity|].
  destruct (H r) as [-> ->].
  rewrite (existsb_map_keeps f _ _ t H), IH. reflexivity.
Qed.

Lemma existsb_same_key_sym (r x : Row) :
  same_key (user_id r) (provider r) x = same_key (user_id x) (provider x) r.
Proof.
  unfold same_key. rewrite (N.eqb_sym (user_id x)), (String.eqb_sym (provider x)).
  reflexivity.
Qed.

Lemma unique_app_new (t : Table) (x : Row) :
  unique_user_provider t = true ->
  existsb (same_key (user_id x) (provider x)) t = false ->
  unique_user_provider (t ++ [x]) = true.
Proof.
  induction t as [|r t IH]; simpl; [reflexivity|].
  intros Hu Hx.
  apply andb_true_iff in Hu as [Hr Ht].
  apply orb_false_iff in Hx as [Hxr Hxt].
  rewrite existsb_app. simpl.
  rewrite (existsb_same_key_sym r x), Hxr.
  apply negb_true_iff in Hr. rewrite Hr. simpl. auto.
Qed.

Lemma unique_filter_single (u : UUID) (p : string) (t : Table) :
  unique_user_provider t = true ->
  existsb (same_key u p) t = true ->
  exists r, filter (same_key u p) t = [r].
Proof.
  induction t as [|r t IH]; simpl; [discriminate|].
  intros Hu Hex. apply andb_true_iff in Hu as [Hr Ht].
  destruct (same_key u p r) eqn:Hk.
  - apply same_key_iff in Hk as [<- <-].
    apply negb_true_iff in Hr.
    rewrite (existsb_false_filter _ _ Hr). eauto.
  - simpl in Hex. auto.
Qed.


(** Filtering after a map that fixes the selected rows and selects no new
    ones. *)
Lemma filter_map_frame {A : Type} (p : A -> bool) (f : A -> A) (l : list A) :
  (forall a, In a l -> p a = true -> f a = a) ->
  (forall a, In a l -> p a = false -> p (f a) = false) ->
  filter p (map f l) = filter p l.
Proof.
  induction l as [|a l IH]; simpl; [reflexivity|].
  intros H1 H2.
  destruct (p a) eqn:Hp.
  - rewrite (H1 a (or_introl eq_refl) Hp). rewrite Hp.
    f_equal. apply IH; auto.
  - rewrite (H2 a (or_introl eq_refl) Hp). apply IH; auto.
Qed.

Lemma filter_filter_frame {A : Type} (p q : A -> bool) (l : list A) :
  (forall a, In a l -> p a = true -> q a = true) ->
  filter p (filter q l) = filter p l.
Proof.
  induction l as [|a l IH]; simpl; [reflexivity|].
  intros H.
  destruct (p a) eqn:Hp.
  - rewrite (H a (or_introl eq_refl) Hp). simpl. rewrite Hp.
    f_equal. apply IH; auto.
  - destruct (q a); simpl; [rewrite Hp|]; apply IH; auto.
Qed.

Lemma filter_map_keeps (f : Row -> Row) (u : UUID) (p : string) (t : Table) :
  keeps_key f ->
  filter (same_key u p) (map f t) = map f (filter (same_key u p) t).
Proof.
  intros H. induction t as [|r t IH]; simpl; [reflexivity|].
  rewrite (same_key_keeps f u p r H).
  destruct (same_key u p r); simpl; rewrite IH; reflexivity.
Qed.

(** *** The UPDATE loop *)

Lemma update_from_map (auth : option UUID) (now : Timestamp) (w : Row -> bool)
  (s : Row -> Row) (todo before t' : Table) :
  update_from auth now w s before todo = DbOk t' ->
  t' = map (update_row auth now w s) todo.
Proof.
  revert before t'. induction todo as [|r rest IH]; intros before t'; simpl.
  - intros E. injection E as <-. reflexivity.
  - destruct (update_target auth w r && negb _); [discriminate|].
    destruct (update_target auth w r && existsb _ _); [discriminate|].
    destruct (update_from auth now w s _ rest) as [rest'|m] eqn:E; [|discriminate].
    intros E'. injection E' as <-. f_equal. eapply IH. exact E.
Qed.

Lemma update_from_check (auth : option UUID) (now : Timestamp) (w : Row -> bool)
  (s : Row -> Row) (todo before t' : Table) (r : Row) :
  update_from auth now w s before todo = DbOk t' ->
  In r todo ->
  update_target auth w r = true ->
  policy_update_check auth (update_row auth now w s r) = true.
Proof.
  revert before t'. induction todo as [|x rest IH]; intros before t'; simpl;
    [intros _ []|].
  destruct (update_target auth w x && negb _) eqn:C1; [discriminate|].
  destruct (update_target auth w x && existsb _ _); [discriminate|].
  destruct (update_from auth now w s _ rest) as [rest'|m] eqn:E; [|discriminate].
  intros _ [<-|Hin] Ht.
  - rewrite Ht in C1. simpl in C1. apply negb_false_iff in C1. exact C1.
  - eapply IH; eassumption.
Qed.

Lemma update_from_no_target (auth : option UUID) (now : Timestamp)
  (w : Row -> bool) (s : Row -> Row) (todo before : Table) :
  (forall r, In r todo -> update_target auth w r = false) ->
  update_from auth now w s before todo = DbOk todo.
Proof.
  revert before. induction todo as [|r rest IH]; intros before H; simpl;
    [reflexivity|].
  assert (Hr : update_target auth w r = false) by (apply H; left; reflexivity).
  unfold update_row. rewrite Hr. simpl.
  rewrite IH by (intros x Hx; apply H; right; exact Hx). reflexivity.
Qed.

Lemma unique_middle (b : Table) (x : Row) (rest : Table) :
  unique_user_provider (b ++ x :: rest)
  = unique_user_provider (b ++ rest)
    && negb (existsb (same_key (user_id x) (provider x)) (b ++ rest)).
Proof.
  induction b as [|y b IH]; simpl.
  - apply andb_comm.
  - rewrite IH, !existsb_app. simpl.
    rewrite (existsb_same_key_sym y x).
    destruct (existsb (same_key (user_id y) (provider y)) b),
             (same_key (user_id x) (provider x) y),
             (existsb (same_key (user_id y) (provider y)) rest),
             (unique_user_provider (b ++ rest)),
             (existsb (same_key (user_id x) (provider x)) b),
             (existsb (same_key (user_id x) (provider x)) rest);
      reflexivity.
Qed.

(** An UPDATE that goes through leaves a table that meets the UNIQUE
    constraint, when it met it before. *)
Lemma update_from_unique (auth : option UUID) (now : Timestamp)
  (w : Row -> bool) (s : Row -> Row) (todo before t' : Table) :
  unique_user_provider (before ++ todo) = true ->
  update_from auth now w s before todo = DbOk t' ->
  unique_user_provider (before ++ t') = true.
Proof.
  revert before t'. induction todo as [|r rest IH]; intros before t'; simpl.
  - intros Hu E. injection E as <-. exact Hu.
  - intros Hu.
    destruct (update_target auth w r && negb _); [discriminate|].
    destruct (update_target auth w r && existsb _ _) eqn:C2; [discriminate|].
    destruct (update_from auth now w s _ rest) as [rest'|m] eqn:E; [|discriminate].
    intros E'. injection E' as <-.
    assert (Hu' : unique_user_provider ((before ++ [update_row auth now w s r]) ++ rest)
                  = true).
    { rewrite <- app_assoc. simpl. rewrite unique_middle in Hu |- *.
      apply andb_true_iff in Hu as [Hu1 Hu2]. rewrite Hu1. simpl.
      unfold update_row in *.
      destruct (update_target auth w r); simpl in C2 |- *; [|exact Hu2].
      rewrite C2. reflexivity. }
    specialize (IH _ _ Hu' E). rewrite <- app_assoc in IH. exact IH.
Qed.

(** *** Rows the caller does not own are out of reach of every request *)

Section Frame.

Variable auth : option UUID.
Variable p : Row -> bool.
Hypothesis p_foreign : forall r, p r = true -> auth_uid_eq auth (user_id r) = false.

Lemma p_owned_false (r : Row) : auth_uid_eq auth (user_id r) = true -> p r = false.
Proof.
  intros H. destruct (p r) eqn:E; [|reflexivity].
  apply p_foreign in E. congruence.
Qed.

Lemma update_rows_frame (now : Timestamp) (w : Row -> bool) (s : Row -> Row)
  (t t' : Table) :
  update_rows auth now w s t = DbOk t' -> filter p t' = filter p t.
Proof.
  unfold update_rows. intros E.
  rewrite (update_from_map auth now w s t [] t' E).
  apply filter_map_frame.
  - intros a _ Hp. unfold update_row, update_target, policy_update_using.
    rewrite (p_foreign _ Hp). reflexivity.
  - intros a Ha Hp.
    destruct (update_target auth w a) eqn:Ht.
    + apply p_owned_false.
      exact (update_from_check auth now w s t [] t' a E Ha Ht).
    + unfold update_row. rewrite Ht. exact Hp.
Qed.

Lemma delete_rows_frame (w : Row -> bool) (t : Table) :
  filter p (delete_rows auth w t) = filter p t.
Proof.
  unfold delete_rows. apply filter_filter_frame.
  intros a _ Hp. unfold policy_delete_using.
  rewrite (p_foreign _ Hp). reflexivity.
Qed.

Lemma upsert_frame (now : Timestamp) (new_id u : UUID) (pu : option string)
  (sc : option (list string)) (a rf : option string) (ex : option Timestamp)
  (t t' : Table) (rows : list Row) :
  upsert_google_user_integration auth now new_id u pu sc a rf ex t
    = DbOk (rows, t') ->
  filter p t' = filter p t.
Proof.
  unfold upsert_google_user_integration, policy_insert_check. simpl.
  destruct (auth_uid_eq auth u) eqn:Hown; simpl; [|discriminate].
  destruct (existsb (same_key u "google") t).
  - destruct (forallb _ t); [|discriminate].
    intros E. injection E as _ <-.
    apply filter_map_frame.
    + intros r _ Hp. unfold on_conflict_do_update.
      destruct (same_key u "google" r) eqn:Hk; [|reflexivity].
      apply same_key_iff in Hk as [Hu _].
      apply p_foreign in Hp. congruence.
    + intros r _ Hp. unfold on_conflict_do_update.
      destruct (same_key u "google" r) eqn:Hk; [|assumption].
      apply same_key_iff in Hk as [Hu _].
      apply p_owned_false. simpl. congruence.
  - intros E. injection E as _ <-.
    rewrite filter_app. simpl.
    rewrite p_owned_false by (simpl; assumption).
    apply app_nil_r.
Qed.

Lemma exec_frame (now : Timestamp) (new_id : UUID) (q : Stmt) (t : Table) :
  filter p (snd (exec auth now new_id q t)) = filter p t.
Proof.
  destruct q as [w|w s|w|u pu sc a rf ex]; simpl.
  - reflexivity.
  - destruct (update_rows auth now w s t) eqn:E; simpl; [|reflexivity].
    eapply update_rows_frame; eassumption.
  - apply delete_rows_frame.
  - destruct (upsert_google_user_integration _ _ _ _ _ _ _ _ _ _) as [[rows t']|m] eqn:E;
      simpl; [|reflexivity].
    eapply upsert_frame; eassumption.
Qed.

End Frame.

(** The rows a request sends back are the caller's. *)
Lemma exec_rows_owned (auth : option UUID) (now : Timestamp) (new_id : UUID)
  (q : Stmt) (t : Table) (rows : list Row) (r : Row) :
  fst (exec auth now new_id q t) = DbOk rows ->
  In r rows -> auth = Some (user_id r).
Proof.
  destruct q as [w|w s|w|u pu sc a rf ex]; simpl.
  - intros E Hin. injection E as <-.
    unfold select_rows in Hin. apply filter_In in Hin as [_ H].
    apply andb_true_iff in H as [H _].
    apply auth_uid_eq_iff. exact H.
  - destruct (update_rows auth now w s t); simpl; [|discriminate].
    intros E. injection E as <-. intros [].
  - intros E. injection E as <-. intros [].
  - unfold upsert_google_user_integration, policy_insert_check. simpl.
    destruct (auth_uid_eq auth u) eqn:Hown; simpl; [|discriminate].
    apply auth_uid_eq_iff in Hown.
    destruct (existsb (same_key u "google") t).
    + destruct (forallb _ t); simpl; [|discriminate].
      intros E Hin. injection E as <-.
      apply filter_In in Hin as [_ Hk].
      apply same_key_iff in Hk as [-> _]. assumption.
    + simpl. intros E Hin. injection E as <-.
      destruct Hin as [<-|[]]. simpl. assumption.
Qed.

End DbFacts.
(* ================================================================= *)
(** ** The two statements the actions issue, run by the row's owner *)

Module StmtFacts.

Import Db DbFacts.

Lemma on_conflict_keeps (now : Timestamp) (excluded : Row) (c : Row -> bool) :
  keeps_key (on_conflict_do_update now excluded c).
Proof.
  intros r. unfold on_conflict_do_update. destruct (c r); simpl; auto.
Qed.

(** The upsert called for oneself on a table that meets its UNIQUE
    constraint: it succeeds, and leaves one row for the key, holding the
    arguments. *)
Lemma upsert_own (u : UUID) (now : Timestamp) (new_id : UUID)
  (pu : option string) (sc : option (list string)) (a rf : option string)
  (ex : option Timestamp) (t : Table) :
  unique_user_provider t = true ->
  exists r t',
    upsert_google_user_integration (Some u) now new_id u pu sc a rf ex t
      = DbOk ([r], t')
    /\ filter (same_key u "google") t' = [r]
    /\ unique_user_provider t' = true
    /\ Lifecycle.written_columns r = (pu, "connected", sc, a, rf, ex, now)
    /\ (forall x, In x t' -> In x t \/ x = r).
Proof.
  intros Hu.
  unfold upsert_google_user_integration, policy_insert_check.
  cbn [user_id auth_uid_eq]. rewrite N.eqb_refl. cbn [negb].
  set (proposed := mkRow new_id u "google" pu "connected" sc a rf ex now now).
  set (conflict := same_key u "google").
  destruct (existsb conflict t) eqn:Hex.
  - assert (Hall : forallb (fun r => policy_update_using (Some u) r
                                     || negb (conflict r)) t = true).
    { apply forallb_forall. intros r _.
      destruct (conflict r) eqn:Hk; simpl; [|apply orb_true_r].
      apply same_key_iff in Hk as [Hk _].
      unfold policy_update_using. simpl. rewrite Hk, N.eqb_refl. reflexivity. }
    rewrite Hall.
    destruct (unique_filter_single u "google" t Hu Hex) as [r0 Hr0].
    pose proof (on_conflict_keeps now proposed conflict) as Hkeep.
    assert (Hc0 : conflict r0 = true).
    { assert (Hin : In r0 (filter conflict t)) by (unfold conflict; rewrite Hr0; left; reflexivity).
      apply filter_In in Hin. tauto. }
    assert (Hf : filter conflict (map (on_conflict_do_update now proposed conflict) t)
                 = [on_conflict_do_update now proposed conflict r0]).
    { unfold conflict at 1. rewrite filter_map_keeps by exact Hkeep.
      rewrite Hr0. reflexivity. }
    eexists. eexists. split; [rewrite Hf; reflexivity|].
    split; [exact Hf|].
    split; [rewrite unique_map_keeps by exact Hkeep; exact Hu|].
    split.
    + unfold on_conflict_do_update. rewrite Hc0. reflexivity.
    + intros x Hx. apply in_map_iff in Hx as [y [<- Hy]].
      unfold on_conflict_do_update at 1.
      destruct (conflict y) eqn:Hcy; [|left; assumption].
      right.
      assert (Hin : In y (filter conflict t)) by (apply filter_In; auto).
      unfold conflict in Hin. rewrite Hr0 in Hin. destruct Hin as [<-|[]].
      unfold on_conflict_do_update. rewrite Hc0. reflexivity.
  - exists proposed, (t ++ [proposed]).
    split; [reflexivity|].
    split.
    { rewrite filter_app. fold conflict.
      rewrite (existsb_false_filter conflict t Hex). simpl.
      unfold conflict, same_key. simpl. rewrite N.eqb_refl. reflexivity. }
    split; [apply unique_app_new; [exact Hu | exact Hex]|].
    split; [reflexivity|].
    intros x Hx. apply in_app_or in Hx as [Hx|[<-|[]]]; auto.
Qed.

(** An UPDATE that assigns no key column, issued by an authenticated
    caller on a table that meets its UNIQUE constraint, succeeds. *)
Lemma update_from_keeps (auth : option UUID) (now : Timestamp)
  (w : Row -> bool) (s : Row -> Row) (todo before : Table) :
  keeps_key s ->
  unique_user_provider (before ++ todo) = true ->
  update_from auth now w s before todo
  = DbOk (map (update_row auth now w s) todo).
Proof.
  intros Hs.
  assert (Hkeep : keeps_key (update_row auth now w s)).
  { intros r. unfold update_row. destruct (update_target auth w r); simpl; auto. }
  revert before. induction todo as [|r rest IH]; intros before Hu; simpl;
    [reflexivity|].
  pose proof Hu as Hu0. rewrite unique_middle in Hu0.
  apply andb_true_iff in Hu0 as [Hu1 Hu2]. apply negb_true_iff in Hu2.
  destruct (Hkeep r) as [Ki Kp].
  assert (C1 : update_target auth w r
               && negb (policy_update_check auth (update_row auth now w s r))
               = false).
  { destruct (update_target auth w r) eqn:Ht; [|reflexivity]. simpl.
    unfold policy_update_check. rewrite Ki.
    unfold update_target in Ht. apply andb_true_iff in Ht as [Ht _].
    unfold policy_update_using in Ht. rewrite Ht. reflexivity. }
  rewrite C1, Ki, Kp, Hu2, andb_false_r.
  rewrite IH; [reflexivity|].
  rewrite <- app_assoc. simpl. rewrite unique_middle, Ki, Kp, Hu1, Hu2.
  reflexivity.
Qed.

Lemma update_rows_keeps (auth : option UUID) (now : Timestamp)
  (w : Row -> bool) (s : Row -> Row) (t : Table) :
  keeps_key s ->
  unique_user_provider t = true ->
  update_rows auth now w s t = DbOk (map (update_row auth now w s) t).
Proof.
  intros Hs Hu. apply update_from_keeps; assumption.
Qed.


End StmtFacts.
(* ================================================================= *)
(** ** Facts about the actions *)

Module ActionFacts.

Import Db DbFacts StmtFacts Actions Lifecycle.

Lemma request_eq (env : Env) (e : Effect) (q : Stmt) (w : World) :
  request env e q w
  = (fst (exec (user (session env)) (db_now env) (fresh_uuid env) q (db w)),
     mkWorld (snd (exec (user (session env)) (db_now env) (fresh_uuid env) q (db w)))
             (effects w ++ [e])).
Proof.
  unfold request, bind, emit. simpl.
  destruct (exec _ _ _ q (db w)); reflexivity.
Qed.

Lemma not_signed_in_upsert (env : Env) (data : GoogleIntegrationData.t) (w : World) :
  user (session env) = None \/ userError (session env) <> None ->
  upsertGoogleIntegration env data w = (ActionError "User not authenticated", w).
Proof.
  unfold upsertGoogleIntegration.
  destruct (userError (session env)), (user (session env)); intros [H|H];
    try discriminate; try reflexivity; exfalso; apply H; reflexivity.
Qed.

Lemma not_signed_in_disconnect (env : Env) (w : World) :
  user (session env) = None \/ userError (session env) <> None ->
  disconnectGoogleIntegration env w = (ActionError "User not authenticated", w).
Proof.
  unfold disconnectGoogleIntegration.
  destruct (userError (session env)), (user (session env)); intros [H|H];
    try discriminate; try reflexivity; exfalso; apply H; reflexivity.
Qed.

Lemma storable_toISOString (env : Env) (data : GoogleIntegrationData.t) :
  expiry_storable env data = true ->
  toISOString_opt (tokenExpiresAt env (GoogleIntegrationData.expires_in data))
  = Some (tokenExpiresAt env (GoogleIntegrationData.expires_in data))
  /\ timestamptz_opt_in (tokenExpiresAt env (GoogleIntegrationData.expires_in data))
     = DbOk (tokenExpiresAt env (GoogleIntegrationData.expires_in data)).
Proof.
  unfold expiry_storable, toISOString_opt, toISOString, timestamptz_opt_in,
    timestamptz_in.
  destruct (tokenExpiresAt env _) as [ms|]; [|split; reflexivity].
  intros H. apply andb_true_iff in H as [-> ->]. split; reflexivity.
Qed.

Lemma accepted_parts (env : Env) (data : GoogleIntegrationData.t) :
  connect_accepted env data = true ->
  is_undefined (GoogleIntegrationData.provider_access_token data)
  || is_undefined (GoogleIntegrationData.provider_refresh_token data) = false
  /\ expiry_storable env data = true.
Proof.
  unfold connect_accepted. intros H.
  apply andb_true_iff in H as [H H3]. apply andb_true_iff in H as [H1 H2].
  apply negb_true_iff in H1, H2. rewrite H1, H2. split; [reflexivity | exact H3].
Qed.

(** A connect call of a signed-in user whose arguments the remote call
    takes, on a table that meets its UNIQUE constraint. *)
Lemma connect_ok (env : Env) (data : GoogleIntegrationData.t) (u : UUID)
  (w : World) :
  signed_in env u ->
  connect_accepted env data = true ->
  unique_user_provider (db w) = true ->
  exists r w',
    upsertGoogleIntegration env data w = (ActionSuccess (Some r), w')
    /\ filter (same_key u "google") (db w') = [r]
    /\ unique_user_provider (db w') = true
    /\ written_by (CallConnect env data) r
    /\ (forall x, In x (db w') -> In x (db w) \/ x = r)
    /\ effects w' = effects w ++ [EffRpc "upsert_google_user_integration";
                                   EffRevalidatePath "/settings/integrations"].
Proof.
  intros Hs Ha Hu.
  destruct (accepted_parts env data Ha) as [Hdef Hst].
  destruct (storable_toISOString env data Hst) as [Hiso Hin].
  unfold upsertGoogleIntegration. rewrite Hs. cbn [userError user].
  rewrite Hiso.
  unfold bind, rpc_upsert_google_user_integration. rewrite Hdef, Hin.
  rewrite request_eq. rewrite Hs. cbn [user exec].
  destruct (upsert_own u (db_now env) (fresh_uuid env)
              (Some (GoogleIntegrationData.provider_user_id data))
              (Some (GoogleIntegrationData.scopes data))
              (text_argument (GoogleIntegrationData.provider_access_token data))
              (text_argument (GoogleIntegrationData.provider_refresh_token data))
              (tokenExpiresAt env (GoogleIntegrationData.expires_in data))
              (db w) Hu) as (r & t' & E & Hf & Hu' & Hc & Hin').
  rewrite E. cbn.
  exists r. eexists. split; [reflexivity|]. cbn.
  split; [exact Hf|]. split; [exact Hu'|].
  split.
  { unfold written_columns in Hc. injection Hc as H1 H2 H3 H4 H5 H6 H7.
    unfold written_by, connected_with. cbn. tauto. }
  split; [exact Hin'|].
  rewrite <- app_assoc. reflexivity.
Qed.

(** Whatever the call, connect leaves the table as it was or as the upsert
    function, run for the caller's own id under the caller's auth.uid(),
    leaves it. *)
Lemma connect_db (env : Env) (data : GoogleIntegrationData.t) (w : World) :
  db (snd (upsertGoogleIntegration env data w)) = db w
  \/ exists u pu sc a rf ex,
       userError (session env) = None
       /\ user (session env) = Some u
       /\ db (snd (upsertGoogleIntegration env data w))
          = snd (exec (Some u) (db_now env) (fresh_uuid env)
                   (SUpsertGoogle u pu sc a rf ex) (db w)).
Proof.
  unfold upsertGoogleIntegration.
  destruct (userError (session env)); [left; reflexivity|].
  destruct (user (session env)) as [u|] eqn:Eu; [|left; reflexivity].
  destruct (toISOString_opt _) as [ex|]; [|left; reflexivity].
  unfold bind, rpc_upsert_google_user_integration.
  destruct (is_undefined _ || is_undefined _); [left; reflexivity|].
  destruct (timestamptz_opt_in ex) as [ts|m]; [|left; reflexivity].
  right. rewrite request_eq, Eu.
  exists u, (Some (GoogleIntegrationData.provider_user_id data)),
    (Some (GoogleIntegrationData.scopes data)),
    (text_argument (GoogleIntegrationData.provider_access_token data)),
    (text_argument (GoogleIntegrationData.provider_refresh_token data)), ts.
  split; [reflexivity|]. split; [reflexivity|].
  match goal with
  | |- context [exec ?a ?n ?i ?q ?t] => destruct (exec a n i q t) as [[rows|m] t']
  end; reflexivity.
Qed.

(** A connect call whose arguments the remote call does not take changes
    no row and does not succeed. *)
Lemma connect_refused (env : Env) (data : GoogleIntegrationData.t) (u : UUID)
  (w : World) :
  signed_in env u ->
  connect_accepted env data = false ->
  db (snd (upsertGoogleIntegration env data w)) = db w
  /\ forall d, fst (upsertGoogleIntegration env data w) <> ActionSuccess d.
Proof.
  intros Hs Ha.
  unfold upsertGoogleIntegration. rewrite Hs. cbn [userError user].
  unfold connect_accepted, expiry_storable in Ha.
  unfold toISOString_opt, toISOString.
  destruct (tokenExpiresAt env _) as [ms|].
  - destruct (date_valid ms); [|split; [reflexivity | discriminate]].
    unfold bind, rpc_upsert_google_user_integration.
    destruct (is_undefined (GoogleIntegrationData.provider_access_token data));
      [split; [reflexivity | discriminate]|].
    destruct (is_undefined (GoogleIntegrationData.provider_refresh_token data));
      [split; [reflexivity | discriminate]|].
    cbn [negb andb] in Ha. unfold timestamptz_opt_in, timestamptz_in. rewrite Ha.
    destruct (utc_year ms =? 0); split; try reflexivity; discriminate.
  - unfold bind, rpc_upsert_google_user_integration.
    destruct (is_undefined (GoogleIntegrationData.provider_access_token data));
      [split; [reflexivity | discriminate]|].
    destruct (is_undefined (GoogleIntegrationData.provider_refresh_token data));
      [split; [reflexivity | discriminate]|].
    discriminate.
Qed.

Lemma disconnect_where_key (u : UUID) (r : Row) :
  disconnect_where u r = same_key u "google" r.
Proof. reflexivity. Qed.

Lemma disconnect_set_keeps (d : Timestamp) : keeps_key (disconnect_set d).
Proof. intros r. simpl. auto. Qed.

Lemma disconnect_ok (env : Env) (u : UUID) (w : World) :
  signed_in env u ->
  unique_user_provider (db w) = true ->
  disconnectGoogleIntegration env w
  = (ActionSuccess None,
     mkWorld (map (update_row (Some u) (db_now env) (disconnect_where u)
                     (disconnect_set (date_now env))) (db w))
             (effects w ++ [EffUpdate "user_integrations";
                            EffRevalidatePath "/settings/integrations"])).
Proof.
  intros Hs Hu.
  unfold disconnectGoogleIntegration. rewrite Hs. cbn [userError user].
  unfold bind. rewrite request_eq. rewrite Hs. cbn [user exec].
  rewrite (update_rows_keeps (Some u) (db_now env) (disconnect_where u)
             (disconnect_set (date_now env)) (db w)
             (disconnect_set_keeps _) Hu).
  cbn. rewrite <- app_assoc. reflexivity.
Qed.

End ActionFacts.
(* ================================================================= *)
(** ** Facts about single calls and histories *)

Module RunFacts.

Import Db DbFacts StmtFacts Actions Lifecycle ActionFacts.

Lemma session_cases (env : Env) :
  (exists u, signed_in env u)
  \/ (user (session env) = None \/ userError (session env) <> None).
Proof.
  unfold signed_in. destruct (session env) as [[u|] [e|]]; simpl.
  - right. right. discriminate.
  - left. exists u. reflexivity.
  - right. left. reflexivity.
  - right. left. reflexivity.
Qed.


Lemma connect_throws (env : Env) (data : GoogleIntegrationData.t) (u : UUID)
  (ms : Z) (w : World) :
  signed_in env u ->
  tokenExpiresAt env (GoogleIntegrationData.expires_in data) = Some ms ->
  date_valid ms = false ->
  upsertGoogleIntegration env data w
  = (ActionThrows "RangeError: Invalid time value", w).
Proof.
  intros Hs He Hv. unfold upsertGoogleIntegration. rewrite Hs. cbn [userError user].
  rewrite He. unfold toISOString_opt, toISOString. rewrite Hv. reflexivity.
Qed.

Lemma update_row_written (u : UUID) (env : Env) (y : Row) :
  update_row (Some u) (db_now env) (disconnect_where u)
    (disconnect_set (date_now env)) y = y
  \/ written_by (CallDisconnect env)
       (update_row (Some u) (db_now env) (disconnect_where u)
          (disconnect_set (date_now env)) y).
Proof.
  unfold update_row. destruct (update_target _ _ y); [right|left; reflexivity].
  unfold written_by, cleared. simpl. tauto.
Qed.

Lemma update_row_keeps (auth : option UUID) (now : Timestamp)
  (w : Row -> bool) (s : Row -> Row) :
  keeps_key s -> keeps_key (update_row auth now w s).
Proof.
  intros Hs r. unfold update_row.
  destruct (update_target auth w r); simpl; auto.
Qed.

(** Every call keeps the UNIQUE constraint. *)
Lemma call_unique (c : Call) (w : World) :
  unique_user_provider (db w) = true ->
  unique_user_provider (db (snd (call c w))) = true.
Proof.
  intros Hu. destruct c as [env data|env]; simpl.
  - destruct (session_cases env) as [[u Hs]|Hn].
    + destruct (connect_accepted env data) eqn:Hr.
      * destruct (connect_ok env data u w Hs Hr Hu) as (r & w' & E & _ & Hu' & _).
        rewrite E. exact Hu'.
      * destruct (connect_refused env data u w Hs Hr) as [E _].
        rewrite E. exact Hu.
    + rewrite (not_signed_in_upsert env data w Hn). exact Hu.
  - destruct (session_cases env) as [[u Hs]|Hn].
    + rewrite (disconnect_ok env u w Hs Hu). simpl.
      rewrite unique_map_keeps; [exact Hu|].
      apply update_row_keeps, disconnect_set_keeps.
    + rewrite (not_signed_in_disconnect env w Hn). exact Hu.
Qed.






Lemma run_cons (c : Call) (cs : list Call) (w : World) :
  snd (run (c :: cs) w) = snd (run cs (snd (call c w))).
Proof.
  simpl. unfold bind. destruct (call c w) as [r w1]. simpl.
  destruct (run cs w1) as [rs w2]. reflexivity.
Qed.




(** After a disconnect that reaches the database, the caller's google row
    is as disconnect writes it. *)
Lemma disconnect_rows_written (env : Env) (u : UUID) (w : World) (r : Row) :
  signed_in env u ->
  unique_user_provider (db w) = true ->
  In r (db (snd (disconnectGoogleIntegration env w))) ->
  same_key u "google" r = true ->
  written_by (CallDisconnect env) r.
Proof.
  intros Hs Hu. rewrite (disconnect_ok env u w Hs Hu). cbn [snd db].
  pose proof (update_row_keeps (Some u) (db_now env) (disconnect_where u)
                (disconnect_set (date_now env)) (disconnect_set_keeps _))
    as Hkeep.
  intros Hin Hk. apply in_map_iff in Hin as [y [<- Hy]].
  rewrite (same_key_keeps _ u "google" y Hkeep) in Hk.
  unfold update_row, update_target, policy_update_using.
  rewrite disconnect_where_key, Hk.
  apply same_key_iff in Hk as [Hku _]. cbn [auth_uid_eq].
  rewrite Hku, N.eqb_refl. cbn. unfold written_by, cleared. cbn. tauto.
Qed.








End RunFacts.
(* ================================================================= *)
(** ** Properties of connect *)

Module ConnectProps.

Import Db DbFacts StmtFacts Actions Lifecycle ActionFacts RunFacts.

(** C1.  A connect call of the signed-in user 1 with access token
    "ya29.raw-access" and refresh token "1//raw-refresh" writes one row whose
    two token columns hold exactly these two strings: the action passes the
    raw tokens on as [p_encrypted_access_token] and
    [p_encrypted_refresh_token], so what is persisted equals the plaintext
    the caller supplied. *)
Theorem connect_persists_raw_tokens :
  let env := mkEnv (mkSession (Some 1%N) None) 1700000000000 1700000000250 7%N in
  let data := GoogleIntegrationData.mk (js_string "ya29.raw-access")
                (js_string "1//raw-refresh") (Some 3599) ["openid"] "108" in
  map (fun r => (provider_access_token_encrypted r,
                 provider_refresh_token_encrypted r))
      (db (snd (upsertGoogleIntegration env data (mkWorld [] []))))
  = [(Some "ya29.raw-access", Some "1//raw-refresh")]
  /\ GoogleIntegrationData.provider_access_token data
     = js_string "ya29.raw-access"
  /\ GoogleIntegrationData.provider_refresh_token data
     = js_string "1//raw-refresh".
Proof. repeat split. Qed.



(** C10.  Without an authenticated user (getUser gives no user, or gives an
    error) both actions return the error 'User not authenticated' and leave
    the world as it was: the table and the log of requests are unchanged. *)
Theorem unauthenticated_calls_change_nothing :
  forall (env : Env) (data : GoogleIntegrationData.t) (w : World),
    user (session env) = None \/ userError (session env) <> None ->
    upsertGoogleIntegration env data w
      = (ActionError "User not authenticated", w)
    /\ disconnectGoogleIntegration env w
      = (ActionError "User not authenticated", w).
Proof.
  intros env data w H. split.
  - apply not_signed_in_upsert, H.
  - apply not_signed_in_disconnect, H.
Qed.

Lemma unauthenticated_calls_change_nothing_witness :
  let env := mkEnv (mkSession None (Some "Auth session missing!"))
               1700000000000 1700000000250 7%N in
  let data := GoogleIntegrationData.mk (js_string "access-1") (js_string "refresh-1")
                (Some 3599) ["openid"] "108" in
  let w := mkWorld [mkRow 3%N 1%N "google" (Some "108") "connected"
                      (Some ["openid"]) (Some "a") (Some "b") None 5 5] [] in
  (user (session env) = None \/ userError (session env) <> None)
  /\ upsertGoogleIntegration env data w
      = (ActionError "User not authenticated", w)
  /\ disconnectGoogleIntegration env w
      = (ActionError "User not authenticated", w).
Proof.
  intros env data w.
  assert (H : user (session env) = None \/ userError (session env) <> None)
    by (left; reflexivity).
  split; [exact H|].
  exact (unauthenticated_calls_change_nothing env data w H).
Defined.

End ConnectProps.
(* ================================================================= *)
(** ** Properties of the record's state *)

Module RecordProps.

Import Db DbFacts StmtFacts Actions Lifecycle ActionFacts RunFacts.







(** C6.  For a signed-in user, on a table that meets its UNIQUE constraint,
    disconnect returns success; afterwards every row of (user, google) has
    status 'disconnected' and null scopes, token fields, expiry and provider
    user id; no row is added or removed; and when the user has no google
    row the table is left as it was, still with success. *)
Theorem disconnect_clears_and_succeeds :
  forall (env : Env) (u : UUID) (w : World),
    signed_in env u ->
    unique_user_provider (db w) = true ->
    fst (disconnectGoogleIntegration env w) = ActionSuccess None
    /\ (forall r, In r (db (snd (disconnectGoogleIntegration env w))) ->
                  same_key u "google" r = true -> cleared r)
    /\ List.length (filter (same_key u "google")
                      (db (snd (disconnectGoogleIntegration env w))))
       = List.length (filter (same_key u "google") (db w))
    /\ (filter (same_key u "google") (db w) = [] ->
        db (snd (disconnectGoogleIntegration env w)) = db w).
Proof.
  intros env u w Hs Hu.
  rewrite (disconnect_ok env u w Hs Hu). cbn [fst snd db].
  pose proof (update_row_keeps (Some u) (db_now env) (disconnect_where u)
                (disconnect_set (date_now env)) (disconnect_set_keeps _))
    as Hkeep.
  split; [reflexivity|]. split; [|split].
  - intros r Hin Hk. apply in_map_iff in Hin as [y [<- Hy]].
    rewrite (same_key_keeps _ u "google" y Hkeep) in Hk.
    unfold update_row, update_target, policy_update_using.
    rewrite disconnect_where_key, Hk.
    apply same_key_iff in Hk as [Hku _]. cbn [auth_uid_eq].
    rewrite Hku, N.eqb_refl. cbn. unfold cleared. cbn. tauto.
  - rewrite (filter_map_keeps _ u "google" (db w) Hkeep).
    apply length_map.
  - intros Hnone. rewrite <- (map_id (db w)) at 2.
    apply map_ext_in. intros y Hy.
    unfold update_row, update_target. rewrite disconnect_where_key.
    assert (Hk : same_key u "google" y = false).
    { apply filter_nil_existsb in Hnone.
      destruct (same_key u "google" y) eqn:E; [|reflexivity].
      assert (X : existsb (same_key u "google") (db w) = true)
        by (apply existsb_exists; eauto).
      congruence. }
    rewrite Hk, andb_false_r. reflexivity.
Qed.

Lemma disconnect_clears_and_succeeds_witness :
  let env := mkEnv (mkSession (Some 2%N) None) 1700000000000 1700000000250 7%N in
  let w := mkWorld [mkRow 3%N 1%N "google" (Some "108") "connected"
                      (Some ["openid"]) (Some "a") (Some "b") None 5 5] [] in
  (signed_in env 2%N /\ unique_user_provider (db w) = true)
  /\ fst (disconnectGoogleIntegration env w) = ActionSuccess None
  /\ (forall r, In r (db (snd (disconnectGoogleIntegration env w))) ->
                same_key 2%N "google" r = true -> cleared r)
  /\ List.length (filter (same_key 2%N "google")
                    (db (snd (disconnectGoogleIntegration env w))))
     = List.length (filter (same_key 2%N "google") (db w))
  /\ (filter (same_key 2%N "google") (db w) = [] ->
      db (snd (disconnectGoogleIntegration env w)) = db w).
Proof.
  intros env w.
  assert (H1 : signed_in env 2%N) by reflexivity.
  assert (H2 : unique_user_provider (db w) = true) by reflexivity.
  split; [tauto|].
  exact (disconnect_clears_and_succeeds env 2%N w H1 H2).
Defined.

End RecordProps.
(* ================================================================= *)
(** ** Properties of writes: versions and timestamps *)

Module WriteProps.

Import Db DbFacts StmtFacts Actions Lifecycle ActionFacts RunFacts.








End WriteProps.
(* ================================================================= *)
(** ** Properties of reads and of ownership *)

Module ReadProps.

Import Db DbFacts StmtFacts Actions Lifecycle ActionFacts RunFacts.

Lemma own_key_filter (u : UUID) (g : string) (r : Row) :
  policy_select_using (Some u) r && (eq_user_id u r && eq_provider g r)
  = same_key u g r.
Proof.
  unfold policy_select_using, eq_user_id, eq_provider, same_key. simpl.
  rewrite (N.eqb_sym u). destruct (N.eqb (user_id r) u); reflexivity.
Qed.

(** The SELECT of the status query, issued by the user for their own id. *)
Lemma select_own_key (u : UUID) (t : Table) :
  select_rows (Some u) (fun r => eq_user_id u r && eq_provider "google" r) t
  = filter (same_key u "google") t.
Proof.
  unfold select_rows. apply filter_ext. intros r. apply own_key_filter.
Qed.

(** C8.  For two distinct users [a] and [b] and any request (SELECT,
    UPDATE, DELETE or the upsert function, with any filter, SET list and
    arguments) run with auth.uid() = [a]: every row sent back is a row of
    [a], and the rows of [b] in the table are the same before and after.
    Every request of the client code goes to the database under the
    session's user, so the same holds for it. *)
Theorem requests_are_scoped_to_caller :
  forall (a b : UUID) (now : Timestamp) (new_id : UUID) (q : Stmt) (t : Table),
    a <> b ->
    (forall rows r,
        fst (exec (Some a) now new_id q t) = DbOk rows ->
        In r rows -> user_id r = a)
    /\ filter (eq_user_id b) (snd (exec (Some a) now new_id q t))
       = filter (eq_user_id b) t
    /\ (forall env e w,
          user (session env) = Some a ->
          filter (eq_user_id b) (db (snd (request env e q w)))
          = filter (eq_user_id b) (db w)).
Proof.
  intros a b now new_id q t Hab.
  assert (Hp : forall r, eq_user_id b r = true ->
                         auth_uid_eq (Some a) (user_id r) = false).
  { intros r Hr. unfold eq_user_id in Hr. apply N.eqb_eq in Hr.
    simpl. apply N.eqb_neq. congruence. }
  split; [|split].
  - intros rows r E Hin.
    pose proof (exec_rows_owned (Some a) now new_id q t rows r E Hin) as H.
    congruence.
  - apply (exec_frame (Some a) (eq_user_id b) Hp).
  - intros env e w Hs. rewrite request_eq, Hs. cbn [snd db].
    apply (exec_frame (Some a) (eq_user_id b) Hp).
Qed.

Lemma requests_are_scoped_to_caller_witness :
  let rb := mkRow 3%N 2%N "google" (Some "108") "connected" (Some ["openid"])
                  (Some "access-b") (Some "refresh-b") None 5 10 in
  let q := SUpdate (eq_user_id 2%N) (fun r => trigger_set_timestamp 0 r) in
  1%N <> 2%N
  /\ (forall rows r,
        fst (exec (Some 1%N) 20 7%N q [rb]) = DbOk rows ->
        In r rows -> user_id r = 1%N)
  /\ filter (eq_user_id 2%N) (snd (exec (Some 1%N) 20 7%N q [rb]))
     = filter (eq_user_id 2%N) [rb].
Proof.
  intros rb q.
  assert (H : 1%N <> 2%N) by discriminate.
  split; [exact H|].
  pose proof (requests_are_scoped_to_caller 1%N 2%N 20 7%N q [rb] H) as P.
  split; [exact (proj1 P) | exact (proj1 (proj2 P))].
Defined.

(** C9.  fetchIntegrationStatus, for any user argument and any session,
    leaves the table as it was and issues at most one request, a SELECT on
    user_integrations: no update, no call of the upsert function, no request
    to the provider.  For a signed-in user asking for their own status on a
    table that meets its UNIQUE constraint, a stored google row gives
    {connected = (status is 'connected'), scopes = the row's scopes,
    lastChecked = now}, and no row gives connected = false. *)
Theorem status_query_is_pure_read :
  forall (env : Env) (user_arg : option UUID) (st : Page.State) (w : World),
    db (snd (Page.fetchIntegrationStatus env user_arg st w)) = db w
    /\ (effects (snd (Page.fetchIntegrationStatus env user_arg st w)) = effects w
        \/ effects (snd (Page.fetchIntegrationStatus env user_arg st w))
           = effects w ++ [EffSelect "user_integrations"])
    /\ (forall u,
          user_arg = Some u ->
          user (session env) = Some u ->
          unique_user_provider (db w) = true ->
          (forall r, In r (db w) -> same_key u "google" r = true ->
             Page.googleIntegration (fst (Page.fetchIntegrationStatus env user_arg st w))
             = Some (Page.mkStatus "google" (String.eqb (status r) "connected")
                       (scopes r) (Some (date_now env))))
          /\ (filter (same_key u "google") (db w) = [] ->
              Page.googleIntegration (fst (Page.fetchIntegrationStatus env user_arg st w))
              = Some (Page.mkStatus "google" false None (Some (date_now env))))).
Proof.
  intros env user_arg st w.
  split; [|split].
  - unfold Page.fetchIntegrationStatus, bind.
    destruct user_arg as [uid|]; [|reflexivity].
    rewrite request_eq. cbn [exec fst snd].
    destruct (maybeSingle _) as [[data|]|m]; reflexivity.
  - unfold Page.fetchIntegrationStatus, bind.
    destruct user_arg as [uid|]; [right|left; reflexivity].
    rewrite request_eq. cbn [exec fst snd].
    destruct (maybeSingle _) as [[data|]|m]; reflexivity.
  - intros u -> Hs Hu.
    unfold Page.fetchIntegrationStatus, bind.
    rewrite request_eq, Hs. cbn [exec fst snd].
    rewrite select_own_key.
    destruct (existsb (same_key u "google") (db w)) eqn:Hex.
    + destruct (unique_filter_single u "google" (db w) Hu Hex) as [r0 Hr0].
      rewrite Hr0. cbn. split; [|discriminate].
      intros r Hin Hk.
      assert (Hin' : In r (filter (same_key u "google") (db w)))
        by (apply filter_In; auto).
      rewrite Hr0 in Hin'. destruct Hin' as [<-|[]]. reflexivity.
    + rewrite (existsb_false_filter _ _ Hex). cbn. split; [|reflexivity].
      intros r Hin Hk.
      assert (X : existsb (same_key u "google") (db w) = true)
        by (apply existsb_exists; eauto).
      congruence.
Qed.

Lemma status_query_is_pure_read_witness :
  let env := mkEnv (mkSession (Some 1%N) None) 1700000000000 1700000000250 7%N in
  let r := mkRow 3%N 1%N "google" (Some "108") "connected" (Some ["openid"])
                 (Some "access-1") (Some "refresh-1") (Some 1700003599000) 5 10 in
  let w := mkWorld [r] [] in
  let st := Page.mkState None true None in
  (user (session env) = Some 1%N
   /\ unique_user_provider (db w) = true
   /\ In r (db w)
   /\ same_key 1%N "google" r = true)
  /\ db (snd (Page.fetchIntegrationStatus env (Some 1%N) st w)) = db w
  /\ Page.googleIntegration (fst (Page.fetchIntegrationStatus env (Some 1%N) st w))
     = Some (Page.mkStatus "google" true (Some ["openid"]) (Some 1700000000000)).
Proof.
  intros env r w st.
  assert (H1 : user (session env) = Some 1%N) by reflexivity.
  assert (H2 : unique_user_provider (db w) = true) by reflexivity.
  assert (H3 : In r (db w)) by (left; reflexivity).
  assert (H4 : same_key 1%N "google" r = true) by reflexivity.
  split; [tauto|].
  pose proof (status_query_is_pure_read env (Some 1%N) st w) as P.
  split; [exact (proj1 P)|].
  exact (proj1 (proj2 (proj2 P) 1%N eq_refl H1 H2) r H3 H4).
Defined.

End ReadProps.
(* ================================================================= *)
(** ** Further properties of the table and its policies *)

Module DbExtras.

Import Db DbFacts StmtFacts.

Lemma filter_none {A : Type} (f : A -> bool) (l : list A) :
  (forall a, In a l -> f a = false) -> filter f l = [].
Proof.
  induction l as [|a l IH]; simpl; [reflexivity|].
  intros H. rewrite (H a (or_introl eq_refl)). apply IH. auto.
Qed.

Lemma filter_all {A : Type} (f : A -> bool) (l : list A) :
  (forall a, In a l -> f a = true) -> filter f l = l.
Proof.
  induction l as [|a l IH]; simpl; [reflexivity|].
  intros H. rewrite (H a (or_introl eq_refl)). f_equal. apply IH. auto.
Qed.

Lemma existsb_filter_sub {A : Type} (f g : A -> bool) (l : list A) :
  existsb f (filter g l) = true -> existsb f l = true.
Proof.
  intros H. apply existsb_exists in H as (x & Hx & Hf).
  apply filter_In in Hx as [Hx _].
  apply existsb_exists. eauto.
Qed.

Lemma unique_filter (f : Row -> bool) (t : Table) :
  unique_user_provider t = true ->
  unique_user_provider (filter f t) = true.
Proof.
  induction t as [|r t IH]; simpl; [reflexivity|].
  intros H. apply andb_true_iff in H as [Hr Ht].
  destruct (f r); simpl; [|auto].
  rewrite (IH Ht), andb_true_r.
  apply negb_true_iff. apply negb_true_iff in Hr.
  destruct (existsb _ (filter f t)) eqn:E; [|reflexivity].
  apply existsb_filter_sub in E. congruence.
Qed.

(** X1.  Whatever the request and whoever the caller, a table that meets
    UNIQUE (user_id, provider) still meets it afterwards. *)
Theorem exec_keeps_unique :
  forall (auth : option UUID) (now : Timestamp) (new_id : UUID) (q : Stmt)
         (t : Table),
    unique_user_provider t = true ->
    unique_user_provider (snd (exec auth now new_id q t)) = true.
Proof.
  intros auth now new_id q t Hu.
  destruct q as [w|w s|w|u pu sc a rf ex]; simpl.
  - exact Hu.
  - destruct (update_rows auth now w s t) as [t'|m] eqn:E; simpl; [|exact Hu].
    exact (update_from_unique auth now w s t [] t' Hu E).
  - apply unique_filter, Hu.
  - destruct (auth_uid_eq auth u) eqn:Hown.
    + apply auth_uid_eq_iff in Hown. subst auth.
      destruct (upsert_own u now new_id pu sc a rf ex t Hu)
        as (r & t' & E & _ & Hu' & _).
      rewrite E. exact Hu'.
    + unfold upsert_google_user_integration, policy_insert_check.
      cbn [user_id]. rewrite Hown. exact Hu.
Qed.

Lemma exec_keeps_unique_witness :
  let t := [mkRow 3%N 1%N "google" (Some "108") "connected" (Some ["openid"])
              (Some "a") (Some "b") None 5 10] in
  let q := SUpsertGoogle 1%N (Some "108") (Some ["openid"; "email"])
             (Some "a2") None None in
  unique_user_provider t = true
  /\ unique_user_provider (snd (exec (Some 1%N) 20 7%N q t)) = true.
Proof.
  intros t q.
  assert (H : unique_user_provider t = true) by reflexivity.
  split; [exact H|].
  exact (exec_keeps_unique (Some 1%N) 20 7%N q t H).
Defined.

(** X2.  A request without an authenticated caller changes nothing and is
    shown nothing: the table is left as it was, and the answer is an empty
    list of rows or an error. *)
Theorem anonymous_requests_do_nothing :
  forall (now : Timestamp) (new_id : UUID) (q : Stmt) (t : Table),
    snd (exec None now new_id q t) = t
    /\ (fst (exec None now new_id q t) = DbOk []
        \/ exists m, fst (exec None now new_id q t) = DbError m).
Proof.
  intros now new_id q t.
  destruct q as [w|w s|w|u pu sc a rf ex]; simpl.
  - split; [reflexivity|]. left. f_equal.
    apply filter_none. intros r _. reflexivity.
  - unfold update_rows.
    rewrite (update_from_no_target None now w s t []) by (intros r _; reflexivity).
    split; [reflexivity | left; reflexivity].
  - split; [|left; reflexivity].
    apply filter_all. intros r _. reflexivity.
  - split; [reflexivity | right; eauto].
Qed.

(** X3.  The upsert function called for a user id that is not the
    caller's own is refused with an error, and the table is left as it
    was. *)
Theorem upsert_for_another_user_is_refused :
  forall (auth : option UUID) (now : Timestamp) (new_id u : UUID)
         (pu : option string) (sc : option (list string))
         (a rf : option string) (ex : option Timestamp) (t : Table),
    auth <> Some u ->
    exists m,
      exec auth now new_id (SUpsertGoogle u pu sc a rf ex) t = (DbError m, t).
Proof.
  intros auth now new_id u pu sc a rf ex t H.
  assert (E : auth_uid_eq auth u = false).
  { destruct (auth_uid_eq auth u) eqn:E; [|reflexivity].
    apply auth_uid_eq_iff in E. contradiction. }
  exists rls_violation.
  simpl. unfold upsert_google_user_integration, policy_insert_check.
  cbn [user_id]. rewrite E. reflexivity.
Qed.

Lemma upsert_for_another_user_is_refused_witness :
  let t := [mkRow 3%N 2%N "google" (Some "108") "connected" (Some ["openid"])
              (Some "a") (Some "b") None 5 10] in
  Some 1%N <> Some 2%N
  /\ exists m,
       exec (Some 1%N) 20 7%N
         (SUpsertGoogle 2%N (Some "666") None (Some "mine") None None) t
       = (DbError m, t).
Proof.
  intros t.
  assert (H : Some 1%N <> Some 2%N) by discriminate.
  split; [exact H|].
  exact (upsert_for_another_user_is_refused (Some 1%N) 20 7%N 2%N (Some "666")
           None (Some "mine") None None t H).
Defined.

(** X4.  An UPDATE never moves a row to another owner: when it succeeds
    every row has the user_id it had, and when its SET list would change the
    user_id of a row it reaches, the statement fails. *)
Theorem update_keeps_owner :
  forall (auth : option UUID) (now : Timestamp) (w : Row -> bool)
         (s : Row -> Row) (t : Table),
    (forall t', update_rows auth now w s t = DbOk t' ->
                map user_id t' = map user_id t)
    /\ ((exists r, In r t /\ update_target auth w r = true
                   /\ user_id (s r) <> user_id r) ->
        exists m, update_rows auth now w s t = DbError m).
Proof.
  intros auth now w s t.
  assert (Hok : forall t', update_rows auth now w s t = DbOk t' ->
                  forall r, In r t ->
                    user_id (update_row auth now w s r) = user_id r).
  { intros t' E r Hin. unfold update_rows in E.
    destruct (update_target auth w r) eqn:Ht;
      [|unfold update_row; rewrite Ht; reflexivity].
    pose proof (update_from_check auth now w s t [] t' r E Hin Ht) as Hc.
    unfold update_target in Ht. apply andb_true_iff in Ht as [Hu _].
    apply auth_uid_eq_iff in Hc. apply auth_uid_eq_iff in Hu. congruence. }
  split.
  - intros t' E.
    rewrite (update_from_map auth now w s t [] t' E), map_map.
    apply map_ext_in. intros r Hr. exact (Hok t' E r Hr).
  - intros (r & Hin & Ht & Hne).
    destruct (update_rows auth now w s t) as [t'|m] eqn:E; [|eauto].
    exfalso. apply Hne. rewrite <- (Hok t' eq_refl r Hin).
    unfold update_row. rewrite Ht. reflexivity.
Qed.

Lemma update_keeps_owner_witness :
  let r := mkRow 3%N 1%N "google" (Some "108") "connected" (Some ["openid"])
                 (Some "a") (Some "b") None 5 10 in
  let give_away (x : Row) :=
    mkRow (id x) 2%N (provider x) (provider_user_id x) (status x) (scopes x)
          (provider_access_token_encrypted x)
          (provider_refresh_token_encrypted x)
          (token_expires_at x) (created_at x) (updated_at x) in
  ((exists x, In x [r] /\ update_target (Some 1%N) (fun _ => true) x = true
              /\ user_id (give_away x) <> user_id x)
   /\ update_rows (Some 1%N) 20 (fun _ => true) (trigger_set_timestamp 0) [r]
      = DbOk [trigger_set_timestamp 20 r])
  /\ (exists m, update_rows (Some 1%N) 20 (fun _ => true) give_away [r]
                = DbError m)
  /\ map user_id [trigger_set_timestamp 20 r] = map user_id [r].
Proof.
  intros r give_away.
  assert (H0 : update_rows (Some 1%N) 20 (fun _ => true) (trigger_set_timestamp 0) [r]
               = DbOk [trigger_set_timestamp 20 r]) by reflexivity.
  assert (H : exists x, In x [r]
                        /\ update_target (Some 1%N) (fun _ => true) x = true
                        /\ user_id (give_away x) <> user_id x).
  { exists r. split; [left; reflexivity|]. split; [reflexivity|discriminate]. }
  split; [split; [exact H | exact H0]|].
  split.
  - exact (proj2 (update_keeps_owner (Some 1%N) 20 (fun _ => true) give_away [r]) H).
  - exact (proj1 (update_keeps_owner (Some 1%N) 20 (fun _ => true)
                    (trigger_set_timestamp 0) [r]) _ H0).
Defined.

(** X5.  After a DELETE, a SELECT by the same caller with the same filter
    finds nothing, and every row the DELETE did not reach (a row of somebody
    else, or one the filter leaves out) is still in the table. *)
Theorem delete_then_select_is_empty :
  forall (auth : option UUID) (w : Row -> bool) (t : Table),
    select_rows auth w (delete_rows auth w t) = []
    /\ (forall r, In r t -> policy_delete_using auth r && w r = false ->
                  In r (delete_rows auth w t)).
Proof.
  intros auth w t. split.
  - apply filter_none. intros r Hr.
    apply filter_In in Hr as [_ Hr]. apply negb_true_iff in Hr. exact Hr.
  - intros r Hin H. apply filter_In. rewrite H. auto.
Qed.

Lemma delete_then_select_is_empty_witness :
  let ra := mkRow 3%N 1%N "google" None "disconnected" None None None None 5 10 in
  let rb := mkRow 4%N 2%N "google" (Some "108") "connected" (Some ["openid"])
                  (Some "a") (Some "b") None 5 10 in
  (In rb [ra; rb]
   /\ policy_delete_using (Some 1%N) rb && eq_provider "google" rb = false)
  /\ select_rows (Some 1%N) (eq_provider "google")
       (delete_rows (Some 1%N) (eq_provider "google") [ra; rb]) = []
  /\ In rb (delete_rows (Some 1%N) (eq_provider "google") [ra; rb]).
Proof.
  intros ra rb.
  assert (H1 : In rb [ra; rb]) by (right; left; reflexivity).
  assert (H2 : policy_delete_using (Some 1%N) rb && eq_provider "google" rb = false)
    by reflexivity.
  split; [tauto|].
  pose proof (delete_then_select_is_empty (Some 1%N) (eq_provider "google") [ra; rb]) as P.
  split; [exact (proj1 P) | exact (proj2 P rb H1 H2)].
Defined.

End DbExtras.
(* ================================================================= *)
(** ** Further properties of connect and disconnect *)

Module ActionExtras.

Import Db DbFacts StmtFacts Actions Lifecycle ActionFacts RunFacts Readings.

Lemma same_identity_refl (r : Row) : same_identity r r.
Proof. unfold same_identity. tauto. Qed.

Lemma same_identity_trans (r1 r2 r3 : Row) :
  same_identity r1 r2 -> same_identity r2 r3 -> same_identity r1 r3.
Proof.
  unfold same_identity.
  intros (A1 & A2 & A3 & A4) (B1 & B2 & B3 & B4).
  repeat split; congruence.
Qed.

(** The upsert keeps every row there was, as the same record. *)
Lemma upsert_keeps_rows (auth : option UUID) (now : Timestamp) (new_id u : UUID)
  (pu : option string) (sc : option (list string)) (a rf : option string)
  (ex : option Timestamp) (t : Table) (r : Row) :
  In r t ->
  exists r',
    In r' (snd (exec auth now new_id (SUpsertGoogle u pu sc a rf ex) t))
    /\ same_identity r r'.
Proof.
  intros Hin. simpl. unfold upsert_google_user_integration.
  destruct (negb _); [exists r; split; [exact Hin | apply same_identity_refl]|].
  destruct (existsb _ t).
  - destruct (forallb _ t); [|exists r; split; [exact Hin | apply same_identity_refl]].
    simpl. eexists. split; [apply in_map; exact Hin|].
    unfold on_conflict_do_update, same_identity.
    destruct (same_key u "google" r); simpl; tauto.
  - simpl. exists r. split; [apply in_or_app; left; exact Hin|].
    apply same_identity_refl.
Qed.

(** So does the UPDATE of disconnect. *)
Lemma disconnect_update_keeps_rows (auth : option UUID) (now : Timestamp)
  (new_id u : UUID) (d : Timestamp) (t : Table) (r : Row) :
  In r t ->
  exists r',
    In r' (snd (exec auth now new_id
                  (SUpdate (disconnect_where u) (disconnect_set d)) t))
    /\ same_identity r r'.
Proof.
  intros Hin. simpl.
  destruct (update_rows auth now (disconnect_where u) (disconnect_set d) t)
    as [t'|m] eqn:E;
    [|exists r; split; [exact Hin | apply same_identity_refl]].
  unfold update_rows in E. rewrite (update_from_map _ _ _ _ t [] t' E).
  simpl. eexists. split; [apply in_map; exact Hin|].
  unfold update_row, same_identity.
  destruct (update_target auth (disconnect_where u) r); simpl; tauto.
Qed.

Lemma call_keeps_rows (c : Call) (w : World) (r : Row) :
  In r (db w) ->
  exists r', In r' (db (snd (call c w))) /\ same_identity r r'.
Proof.
  intros Hin.
  assert (Hsame : exists r', In r' (db w) /\ same_identity r r')
    by (exists r; split; [exact Hin | apply same_identity_refl]).
  destruct c as [env data|env]; simpl.
  - destruct (connect_db env data w)
      as [E|(u & pu & sc & a & rf & ex & _ & _ & E)];
      rewrite E; [exact Hsame|].
    apply upsert_keeps_rows. exact Hin.
  - unfold disconnectGoogleIntegration.
    destruct (userError (session env)); [exact Hsame|].
    destruct (user (session env)) as [u|]; [|exact Hsame].
    unfold bind. rewrite request_eq.
    match goal with
    | |- context [exec ?au ?n ?i (SUpdate (disconnect_where ?u') (disconnect_set ?d)) ?t] =>
        destruct (disconnect_update_keeps_rows au n i u' d t r Hin) as (r' & H1 & H2);
        destruct (exec au n i (SUpdate (disconnect_where u') (disconnect_set d)) t)
          as [[rows|m] t']
    end; simpl in *; eauto.
Qed.

(** X6.  Connect and disconnect never delete a record and never change its
    identity: every row of the table is, after any history of calls by any
    callers, still there with the same id, user_id, provider and
    created_at. *)
Theorem records_keep_identity :
  forall (cs : list Call) (w : World) (r : Row),
    In r (db w) ->
    exists r', In r' (table_after cs w) /\ same_identity r r'.
Proof.
  unfold table_after.
  induction cs as [|c cs IH]; intros w r Hin.
  - exists r. split; [exact Hin | apply same_identity_refl].
  - rewrite run_cons.
    destruct (call_keeps_rows c w r Hin) as (r1 & H1 & S1).
    destruct (IH _ r1 H1) as (r2 & H2 & S2).
    exists r2. split; [exact H2|]. exact (same_identity_trans r r1 r2 S1 S2).
Qed.

Lemma records_keep_identity_witness :
  let env1 := mkEnv (mkSession (Some 1%N) None) 1700000000000 20 7%N in
  let env2 := mkEnv (mkSession (Some 1%N) None) 1700000001000 30 8%N in
  let data := GoogleIntegrationData.mk (js_string "access-1") (js_string "refresh-1")
                (Some 3599) ["openid"] "108" in
  let r := mkRow 3%N 1%N "google" None "disconnected" None None None None 5 10 in
  let w := mkWorld [r] [] in
  In r (db w)
  /\ exists r', In r' (table_after [CallConnect env1 data; CallDisconnect env2] w)
                /\ same_identity r r'.
Proof.
  intros env1 env2 data r w.
  assert (H : In r (db w)) by (left; reflexivity).
  split; [exact H|].
  exact (records_keep_identity [CallConnect env1 data; CallDisconnect env2] w r H).
Defined.



(** X8.  A connect call whose expires_in puts the expiry outside the range
    of a Date (more than 8.64e15 ms from the epoch) throws a RangeError from
    toISOString before anything is sent: the table and the log of requests
    are as they were. *)
Theorem connect_with_invalid_expiry_throws :
  forall (env : Env) (data : GoogleIntegrationData.t) (u : UUID) (n : Z)
         (w : World),
    signed_in env u ->
    GoogleIntegrationData.expires_in data = Some n ->
    n <> 0 ->
    8640000000000000 < Z.abs (date_now env + n * 1000) ->
    upsertGoogleIntegration env data w
    = (ActionThrows "RangeError: Invalid time value", w).
Proof.
  intros env data u n w Hs He Hn Hbig.
  apply (connect_throws env data u (date_now env + n * 1000) w Hs).
  - unfold tokenExpiresAt. rewrite He.
    apply Z.eqb_neq in Hn. rewrite Hn. reflexivity.
  - unfold date_valid. apply Z.leb_gt. exact Hbig.
Qed.

Lemma connect_with_invalid_expiry_throws_witness :
  let env := mkEnv (mkSession (Some 1%N) None) 1700000000000 1700000000250 7%N in
  let data := GoogleIntegrationData.mk (js_string "access-1") js_null
                (Some 9000000000000) ["openid"] "108" in
  let w := mkWorld [] [] in
  (signed_in env 1%N
   /\ GoogleIntegrationData.expires_in data = Some 9000000000000
   /\ 9000000000000 <> 0
   /\ 8640000000000000 < Z.abs (date_now env + 9000000000000 * 1000))
  /\ upsertGoogleIntegration env data w
     = (ActionThrows "RangeError: Invalid time value", w).
Proof.
  intros env data w.
  assert (H1 : signed_in env 1%N) by reflexivity.
  assert (H2 : GoogleIntegrationData.expires_in data = Some 9000000000000)
    by reflexivity.
  assert (H3 : 9000000000000 <> 0) by discriminate.
  assert (H4 : 8640000000000000 < Z.abs (date_now env + 9000000000000 * 1000))
    by reflexivity.
  split; [tauto|].
  exact (connect_with_invalid_expiry_throws env data 1%N 9000000000000 w
           H1 H2 H3 H4).
Defined.

(** X9.  A later disconnect absorbs an earlier one: for a signed-in user,
    disconnecting twice leaves the same table as the second disconnect
    alone would have. *)
Theorem disconnect_absorbs_disconnect :
  forall (env1 env2 : Env) (u : UUID) (w : World),
    signed_in env1 u ->
    signed_in env2 u ->
    unique_user_provider (db w) = true ->
    db (snd (disconnectGoogleIntegration env2
               (snd (disconnectGoogleIntegration env1 w))))
    = db (snd (disconnectGoogleIntegration env2 w)).
Proof.
  intros env1 env2 u w H1 H2 Hu.
  pose proof (call_unique (CallDisconnect env1) w Hu) as Hu1. simpl in Hu1.
  rewrite (disconnect_ok env2 u _ H2 Hu1).
  rewrite (disconnect_ok env2 u w H2 Hu).
  rewrite (disconnect_ok env1 u w H1 Hu).
  cbn [snd db]. rewrite map_map. apply map_ext. intros r.
  unfold update_row, update_target, policy_update_using.
  rewrite !disconnect_where_key.
  destruct (auth_uid_eq (Some u) (user_id r) && same_key u "google" r) eqn:E.
  - cbn. unfold same_key. cbn. 
    unfold same_key in E. cbn in E. rewrite E. reflexivity.
  - rewrite E. reflexivity.
Qed.

Lemma disconnect_absorbs_disconnect_witness :
  let env1 := mkEnv (mkSession (Some 1%N) None) 1700000000000 20 7%N in
  let env2 := mkEnv (mkSession (Some 1%N) None) 1700000001000 30 8%N in
  let w := mkWorld [mkRow 3%N 1%N "google" (Some "108") "connected"
                      (Some ["openid"]) (Some "a") (Some "b") None 5 10] [] in
  (signed_in env1 1%N /\ signed_in env2 1%N
   /\ unique_user_provider (db w) = true)
  /\ db (snd (disconnectGoogleIntegration env2
                (snd (disconnectGoogleIntegration env1 w))))
     = db (snd (disconnectGoogleIntegration env2 w)).
Proof.
  intros env1 env2 w.
  assert (H1 : signed_in env1 1%N) by reflexivity.
  assert (H2 : signed_in env2 1%N) by reflexivity.
  assert (H3 : unique_user_provider (db w) = true) by reflexivity.
  split; [tauto|].
  exact (disconnect_absorbs_disconnect env1 env2 1%N w H1 H2 H3).
Defined.

(** X24.  A connect call of a signed-in user that leaves a token
    undefined, or whose expiry is a valid Date of a year after 9999, is
    refused by the remote call: the action returns an error, no row is
    changed, and the one remote call is all that was sent (no
    revalidation). *)
Theorem connect_refused_by_remote_call :
  forall (env : Env) (data : GoogleIntegrationData.t) (u : UUID) (w : World),
    signed_in env u ->
    (exists d, toISOString_opt
                 (tokenExpiresAt env (GoogleIntegrationData.expires_in data))
               = Some d) ->
    (is_undefined (GoogleIntegrationData.provider_access_token data)
     || is_undefined (GoogleIntegrationData.provider_refresh_token data) = true
     \/ exists ms,
          tokenExpiresAt env (GoogleIntegrationData.expires_in data) = Some ms
          /\ 9999 < utc_year ms) ->
    exists m,
      upsertGoogleIntegration env data w
      = (ActionError m,
         mkWorld (db w)
                 (effects w ++ [EffRpc "upsert_google_user_integration"])).
Proof.
  intros env data u w Hs [d Hd] H.
  unfold upsertGoogleIntegration. rewrite Hs. cbn [userError user].
  rewrite Hd. unfold bind, rpc_upsert_google_user_integration.
  destruct (is_undefined (GoogleIntegrationData.provider_access_token data)
            || is_undefined (GoogleIntegrationData.provider_refresh_token data))
    eqn:Hu.
  - eexists. reflexivity.
  - destruct H as [H|(ms & Hms & Hy)]; [discriminate|].
    rewrite Hms in Hd. unfold toISOString_opt in Hd.
    destruct (toISOString ms); [|discriminate]. injection Hd as <-.
    unfold timestamptz_opt_in, timestamptz_in.
    assert (E1 : (utc_year ms <=? 9999) = false) by (apply Z.leb_gt; exact Hy).
    assert (E2 : (utc_year ms =? 0) = false) by (apply Z.eqb_neq; lia).
    rewrite E1, E2, andb_false_r. eexists. reflexivity.
Qed.

Lemma connect_refused_by_remote_call_witness :
  let env := mkEnv (mkSession (Some 1%N) None) 1700000000000 1700000000250 7%N in
  let data := GoogleIntegrationData.mk (js_string "access-1") js_undefined
                (Some 3599) ["openid"] "108" in
  let w := mkWorld [mkRow 3%N 1%N "google" None "disconnected" None None None
                      None 5 10] [] in
  (signed_in env 1%N
   /\ is_undefined (GoogleIntegrationData.provider_access_token data)
      || is_undefined (GoogleIntegrationData.provider_refresh_token data) = true)
  /\ exists m,
       upsertGoogleIntegration env data w
       = (ActionError m,
          mkWorld (db w)
                  (effects w ++ [EffRpc "upsert_google_user_integration"])).
Proof.
  intros env data w.
  assert (H1 : signed_in env 1%N) by reflexivity.
  assert (H2 : is_undefined (GoogleIntegrationData.provider_access_token data)
               || is_undefined (GoogleIntegrationData.provider_refresh_token data)
               = true) by reflexivity.
  split; [tauto|].
  exact (connect_refused_by_remote_call env data 1%N w H1
           (ex_intro _ (Some 1700003599000) eq_refl) (or_introl H2)).
Defined.

End ActionExtras.
(* ================================================================= *)
(** ** Further properties of the status query and of the page *)

Module PageExtras.

Import Db DbFacts StmtFacts Actions Lifecycle ActionFacts RunFacts Readings.
Import ReadProps DbExtras.

Lemma fetch_own_row (env : Env) (u : UUID) (st : Page.State) (w : World)
  (r : Row) :
  user (session env) = Some u ->
  filter (same_key u "google") (db w) = [r] ->
  Page.fetchIntegrationStatus env (Some u) st w
  = (Page.setIsLoading false
       (Page.setGoogleIntegration
          (Some (Page.mkStatus "google" (String.eqb (status r) "connected")
                   (scopes r) (Some (date_now env)))) st),
     mkWorld (db w) (effects w ++ [EffSelect "user_integrations"])).
Proof.
  intros Hs Hf. unfold Page.fetchIntegrationStatus, bind.
  rewrite request_eq, Hs. cbn [exec fst snd].
  rewrite select_own_key, Hf. reflexivity.
Qed.

Lemma fetch_own_none (env : Env) (u : UUID) (st : Page.State) (w : World) :
  user (session env) = Some u ->
  filter (same_key u "google") (db w) = [] ->
  Page.fetchIntegrationStatus env (Some u) st w
  = (Page.setIsLoading false
       (Page.setGoogleIntegration
          (Some (Page.mkStatus "google" false None (Some (date_now env)))) st),
     mkWorld (db w) (effects w ++ [EffSelect "user_integrations"])).
Proof.
  intros Hs Hf. unfold Page.fetchIntegrationStatus, bind.
  rewrite request_eq, Hs. cbn [exec fst snd].
  rewrite select_own_key, Hf. reflexivity.
Qed.



(** X11.  handleDisconnectGoogle of a signed-in user: afterwards the page
    shows Google as not connected, with no scopes, no error and the
    processing flag cleared, whether or not a row existed; every google row
    of the user is cleared; and exactly three things were done, in order:
    the UPDATE, the revalidation, the SELECT of the status query. *)
Theorem handleDisconnectGoogle_shows_disconnected :
  forall (server client : Env) (u : UUID) (st : Integrations.PageState)
         (w : World),
    Integrations.currentUser st = Some u ->
    signed_in server u ->
    user (session client) = Some u ->
    unique_user_provider (db w) = true ->
    let res := Integrations.handleDisconnectGoogle server client st w in
    Page.googleIntegration (Integrations.base (fst res))
      = Some (Page.mkStatus "google" false None (Some (date_now client)))
    /\ Page.actionError (Integrations.base (fst res)) = None
    /\ Integrations.isProcessing (fst res) = false
    /\ (forall r, In r (db (snd res)) -> same_key u "google" r = true ->
                  cleared r)
    /\ effects (snd res)
       = effects w ++ [EffUpdate "user_integrations";
                       EffRevalidatePath "/settings/integrations";
                       EffSelect "user_integrations"].
Proof.
  intros server client u st w Hcu Hs Hc Hu res.
  pose proof (call_unique (CallDisconnect server) w Hu) as Hu1.
  assert (Hcl : forall r, In r (db (snd (disconnectGoogleIntegration server w))) ->
                          same_key u "google" r = true -> cleared r).
  { intros r Hin Hk.
    destruct (disconnect_rows_written server u w r Hs Hu Hin Hk) as [_ H].
    exact H. }
  simpl in Hu1.
  pose proof (disconnect_ok server u w Hs Hu) as E1.
  destruct (disconnectGoogleIntegration server w) as [a1 w1] eqn:Ed.
  injection E1 as Ea Ew. cbn [snd] in Hu1, Hcl.
  assert (Hfetch : forall b,
             Page.fetchIntegrationStatus client (Some u) b w1
             = (Page.setIsLoading false
                  (Page.setGoogleIntegration
                     (Some (Page.mkStatus "google" false None
                              (Some (date_now client)))) b),
                mkWorld (db w1) (effects w1 ++ [EffSelect "user_integrations"]))).
  { intros b.
    destruct (existsb (same_key u "google") (db w1)) eqn:Hex.
    - destruct (unique_filter_single u "google" (db w1) Hu1 Hex) as [r0 Hr0].
      rewrite (fetch_own_row client u b w1 r0 Hc Hr0).
      assert (Hin0 : In r0 (filter (same_key u "google") (db w1)))
        by (rewrite Hr0; left; reflexivity).
      apply filter_In in Hin0 as [Hin0 Hk0].
      destruct (Hcl r0 Hin0 Hk0) as (Hst & Hsc & _).
      rewrite Hst, Hsc. reflexivity.
    - apply (fetch_own_none client u b w1 Hc (existsb_false_filter _ _ Hex)). }
  assert (Heq : res
                = (Integrations.setIsProcessing false
                     (Integrations.setBase
                        (Page.setIsLoading false
                           (Page.setGoogleIntegration
                              (Some (Page.mkStatus "google" false None
                                       (Some (date_now client))))
                              (Integrations.base
                                 (Integrations.setActionError None
                                    (Integrations.setIsProcessing true st)))))
                        (Integrations.setActionError None
                           (Integrations.setIsProcessing true st))),
                   mkWorld (db w1) (effects w1 ++ [EffSelect "user_integrations"]))).
  { subst res. unfold Integrations.handleDisconnectGoogle. rewrite Hcu.
    unfold bind at 1. rewrite Ed, Ea. cbn [Integrations.result_error truthy].
    unfold bind. rewrite Hfetch. reflexivity. }
  rewrite Heq. cbn [fst snd db effects].
  split; [reflexivity|]. split; [reflexivity|]. split; [reflexivity|].
  split; [exact Hcl|].
  rewrite Ew. cbn [effects]. rewrite <- app_assoc. reflexivity.
Qed.

Lemma handleDisconnectGoogle_shows_disconnected_witness :
  let server := mkEnv (mkSession (Some 1%N) None) 1700000000000 1700000000250 7%N in
  let client := mkEnv (mkSession (Some 1%N) None) 1700000000900 1700000001000 8%N in
  let st := Integrations.mkPageState
              (Page.mkState (Some (Page.mkStatus "google" true (Some ["openid"]) None))
                 false None) (Some 1%N) false in
  let w := mkWorld [mkRow 3%N 1%N "google" (Some "108") "connected"
                      (Some ["openid"]) (Some "a") (Some "b") None 5 10] [] in
  (Integrations.currentUser st = Some 1%N /\ signed_in server 1%N
   /\ user (session client) = Some 1%N
   /\ unique_user_provider (db w) = true)
  /\ Page.googleIntegration
       (Integrations.base (fst (Integrations.handleDisconnectGoogle server client st w)))
     = Some (Page.mkStatus "google" false None (Some 1700000000900)).
Proof.
  intros server client st w.
  assert (H1 : Integrations.currentUser st = Some 1%N) by reflexivity.
  assert (H2 : signed_in server 1%N) by reflexivity.
  assert (H3 : user (session client) = Some 1%N) by reflexivity.
  assert (H4 : unique_user_provider (db w) = true) by reflexivity.
  split; [tauto|].
  exact (proj1 (handleDisconnectGoogle_shows_disconnected server client 1%N st w
                  H1 H2 H3 H4)).
Defined.

(** X12.  handleDisconnectGoogle when it cannot disconnect.  Without a
    current user it only sets the error 'User not found.' and sends
    nothing.  With a current user but a server session that is not
    authenticated it shows 'Failed to disconnect: User not authenticated',
    clears the processing flag, keeps the shown status, and the table and
    the log of requests are as they were. *)
Theorem handleDisconnectGoogle_failures :
  forall (server client : Env) (st : Integrations.PageState) (w : World),
    (Integrations.currentUser st = None ->
     Integrations.handleDisconnectGoogle server client st w
     = (Integrations.setActionError (Some "User not found.") st, w))
    /\ (forall u,
          Integrations.currentUser st = Some u ->
          user (session server) = None \/ userError (session server) <> None ->
          Integrations.handleDisconnectGoogle server client st w
          = (Integrations.mkPageState
               (Page.mkState (Page.googleIntegration (Integrations.base st))
                  (Page.isLoading (Integrations.base st))
                  (Some "Failed to disconnect: User not authenticated"))
               (Some u) false,
             w)).
Proof.
  intros server client st w. split.
  - intros H. unfold Integrations.handleDisconnectGoogle. rewrite H. reflexivity.
  - intros u H Hn. unfold Integrations.handleDisconnectGoogle. rewrite H.
    unfold bind. rewrite (not_signed_in_disconnect server w Hn).
    destruct st as [b cu ip]. simpl in H. subst cu. reflexivity.
Qed.

Lemma handleDisconnectGoogle_failures_witness :
  let server := mkEnv (mkSession None None) 1700000000000 1700000000250 7%N in
  let client := mkEnv (mkSession (Some 1%N) None) 1700000000900 1700000001000 8%N in
  let b := Page.mkState (Some (Page.mkStatus "google" true (Some ["openid"]) None))
             false None in
  let st := Integrations.mkPageState b (Some 1%N) false in
  let w := mkWorld [mkRow 3%N 1%N "google" (Some "108") "connected"
                      (Some ["openid"]) (Some "a") (Some "b") None 5 10] [] in
  (Integrations.currentUser st = Some 1%N
   /\ (user (session server) = None \/ userError (session server) <> None))
  /\ Integrations.handleDisconnectGoogle server client st w
     = (Integrations.mkPageState
          (Page.mkState (Page.googleIntegration b) (Page.isLoading b)
             (Some "Failed to disconnect: User not authenticated"))
          (Some 1%N) false,
        w).
Proof.
  intros server client b st w.
  assert (H1 : Integrations.currentUser st = Some 1%N) by reflexivity.
  assert (H2 : user (session server) = None \/ userError (session server) <> None)
    by (left; reflexivity).
  split; [tauto|].
  exact (proj2 (handleDisconnectGoogle_failures server client st w) 1%N H1 H2).
Defined.

(** X13.  The status query made with another user's id shows nothing of
    that user's record: whatever the table holds for that id, the page gets
    connected = false and no scopes, because the SELECT policy hides the
    row. *)
Theorem status_of_another_user_is_hidden :
  forall (env : Env) (b : UUID) (st : Page.State) (w : World),
    user (session env) <> Some b ->
    Page.fetchIntegrationStatus env (Some b) st w
    = (Page.setIsLoading false
         (Page.setGoogleIntegration
            (Some (Page.mkStatus "google" false None (Some (date_now env)))) st),
       mkWorld (db w) (effects w ++ [EffSelect "user_integrations"])).
Proof.
  intros env b st w Hne.
  unfold Page.fetchIntegrationStatus, bind.
  rewrite request_eq. cbn [exec fst snd].
  assert (E : select_rows (user (session env))
                (fun r => eq_user_id b r && eq_provider "google" r) (db w) = []).
  { apply filter_none. intros r _.
    unfold policy_select_using, eq_user_id.
    destruct (N.eqb (user_id r) b) eqn:Eb; [|apply andb_false_r].
    apply N.eqb_eq in Eb. rewrite Eb.
    destruct (auth_uid_eq (user (session env)) b) eqn:Ea; [|reflexivity].
    apply auth_uid_eq_iff in Ea. contradiction. }
  rewrite E. reflexivity.
Qed.

Lemma status_of_another_user_is_hidden_witness :
  let env := mkEnv (mkSession (Some 1%N) None) 1700000000900 1700000001000 8%N in
  let st := Page.mkState None true None in
  let w := mkWorld [mkRow 3%N 2%N "google" (Some "108") "connected"
                      (Some ["openid"]) (Some "a") (Some "b") None 5 10] [] in
  user (session env) <> Some 2%N
  /\ Page.fetchIntegrationStatus env (Some 2%N) st w
     = (Page.setIsLoading false
          (Page.setGoogleIntegration
             (Some (Page.mkStatus "google" false None (Some (date_now env)))) st),
        mkWorld (db w) (effects w ++ [EffSelect "user_integrations"])).
Proof.
  intros env st w.
  assert (H : user (session env) <> Some 2%N) by discriminate.
  split; [exact H|].
  exact (status_of_another_user_is_hidden env 2%N st w H).
Defined.

End PageExtras.
(* ================================================================= *)
(** ** Properties of the model selection hook *)

Module ModelExtras.

Import ModelSelection.

Lemma find_other_key (k : string) (l : list (string * string)) :
  find (fun kv => String.eqb (fst kv) k) (filter (other_key k) l) = None.
Proof.
  induction l as [|[k' v] l IH]; simpl; [reflexivity|].
  unfold other_key at 1. simpl.
  destruct (String.eqb k' k) eqn:E; simpl; [exact IH|].
  rewrite E. exact IH.
Qed.

Lemma getItem_setItem (k v : string) (s s' : LocalStorage) :
  setItem k v s = Some s' -> getItem k s' = Some (Some v).
Proof.
  unfold setItem, getItem.
  destruct (denied s) eqn:Hd; simpl; [discriminate|].
  destruct (full s); [discriminate|].
  intros E. injection E as <-. simpl. rewrite String.eqb_refl. reflexivity.
Qed.

Lemma getItem_removeItem (k : string) (s s' : LocalStorage) :
  removeItem k s = Some s' -> getItem k s' = Some None.
Proof.
  unfold removeItem, getItem.
  destruct (denied s) eqn:Hd; [discriminate|].
  intros E. injection E as <-. simpl. rewrite find_other_key. reflexivity.
Qed.

Lemma offered_is_truthy (status : SubscriptionStatus) (m : string) :
  canAccessModelId status m = true -> Actions.truthy (Some m) = true.
Proof.
  unfold canAccessModelId, find_option.
  destruct (find _ MODEL_OPTIONS) as [o|] eqn:F; [|discriminate].
  intros _. apply find_some in F as [Hin He].
  apply String.eqb_eq in He. subst m.
  simpl in Hin.
  destruct Hin as [<-|[<-|[<-|[<-|[]]]]]; reflexivity.
Qed.

Lemma default_premium_ok :
  canAccessModelId active DEFAULT_PREMIUM_MODEL_ID = true.
Proof. reflexivity. Qed.

Lemma default_free_ok (status : SubscriptionStatus) :
  canAccessModelId status DEFAULT_FREE_MODEL_ID = true.
Proof. destruct status; reflexivity. Qed.

(** What the effect does once the stored value has been read. *)
Lemma restore_effect_read (status : SubscriptionStatus) (h : Hook)
  (savedModel : option string) :
  getItem STORAGE_KEY_MODEL (localStorage h) = Some savedModel ->
  restore_effect true status h
  = match savedModel with
    | Some m =>
        if Actions.truthy savedModel && canAccessModelId status m
        then mkHook m (localStorage h)
        else if is_active status
             then mkHook DEFAULT_PREMIUM_MODEL_ID
                    (try_setItem STORAGE_KEY_MODEL DEFAULT_PREMIUM_MODEL_ID
                       (localStorage h))
             else if Actions.truthy savedModel
                  then match removeItem STORAGE_KEY_MODEL (localStorage h) with
                       | Some s' => mkHook DEFAULT_FREE_MODEL_ID s'
                       | None => h
                       end
                  else mkHook DEFAULT_FREE_MODEL_ID (localStorage h)
    | None =>
        if is_active status
        then mkHook DEFAULT_PREMIUM_MODEL_ID
               (try_setItem STORAGE_KEY_MODEL DEFAULT_PREMIUM_MODEL_ID
                  (localStorage h))
        else mkHook DEFAULT_FREE_MODEL_ID (localStorage h)
    end.
Proof.
  intros E. unfold restore_effect. cbn [negb]. rewrite E.
  destruct savedModel as [m|]; [|destruct (is_active status); reflexivity].
  destruct (Actions.truthy (Some m)) eqn:T; cbn [andb];
    destruct (is_active status); try reflexivity;
    destruct (canAccessModelId status m); reflexivity.
Qed.

(** X18.  With a storage that can be read, the effect always ends with a
    selected model that is one of MODEL_OPTIONS and that the subscription
    may use, whatever was stored (nothing, garbage, a model that is not
    offered) and whatever was selected before; and handleModelChange never
    leaves such a selection for one that is not. *)
Theorem selection_is_always_accessible :
  forall (status : SubscriptionStatus) (h : Hook),
    (denied (localStorage h) = false ->
     canAccessModelId status (selectedModel (restore_effect true status h)) = true)
    /\ (forall m,
          canAccessModelId status (selectedModel h) = true ->
          canAccessModelId status (selectedModel (handleModelChange status m h))
          = true).
Proof.
  intros status h. split.
  - intros Hd.
    assert (E : exists sv, getItem STORAGE_KEY_MODEL (localStorage h) = Some sv).
    { unfold getItem. rewrite Hd. eauto. }
    destruct E as [sv E]. rewrite (restore_effect_read status h sv E).
    destruct sv as [m|].
    + destruct (Actions.truthy (Some m) && canAccessModelId status m) eqn:U.
      * apply andb_true_iff in U as [_ U]. exact U.
      * destruct status; cbn [is_active]; [|exact default_premium_ok].
        destruct (Actions.truthy (Some m)); [|apply default_free_ok].
        unfold removeItem. rewrite Hd. apply default_free_ok.
    + destruct status; cbn [is_active];
        [apply default_free_ok | exact default_premium_ok].
  - intros m H. unfold handleModelChange.
    destruct (canAccessModelId status m) eqn:A; cbn [negb]; assumption.
Qed.

Lemma selection_is_always_accessible_witness :
  let h := mkHook "gpt-4o"
             (mkStorage [("suna-preferred-model", "retired-model")] false true) in
  denied (localStorage h) = false
  /\ canAccessModelId no_subscription
       (selectedModel (restore_effect true no_subscription h)) = true.
Proof.
  intros h.
  assert (H : denied (localStorage h) = false) by reflexivity.
  split; [exact H|].
  exact (proj1 (selection_is_always_accessible no_subscription h) H).
Defined.

(** X19.  A choice made with handleModelChange survives a reload: when the
    model is offered and the storage works, the effect run later on that
    storage, from any selection and under any subscription status that may
    use the model, selects the chosen model again and leaves the storage as
    it is. *)
Theorem saved_choice_is_restored :
  forall (status status' : SubscriptionStatus) (m sel0 : string) (h : Hook),
    canAccessModelId status m = true ->
    canAccessModelId status' m = true ->
    denied (localStorage h) = false ->
    full (localStorage h) = false ->
    restore_effect true status'
      (mkHook sel0 (localStorage (handleModelChange status m h)))
    = mkHook m (localStorage (handleModelChange status m h)).
Proof.
  intros status status' m sel0 h Ha Ha' Hd Hf.
  unfold handleModelChange. rewrite Ha. cbn [negb localStorage].
  assert (Es : exists s', setItem STORAGE_KEY_MODEL m (localStorage h) = Some s').
  { unfold setItem. rewrite Hd, Hf. cbn [orb]. eauto. }
  destruct Es as [s' Es]. unfold try_setItem. rewrite Es.
  rewrite (restore_effect_read status' (mkHook sel0 s') (Some m)
             (getItem_setItem _ _ _ _ Es)).
  rewrite (offered_is_truthy status m Ha), Ha'. reflexivity.
Qed.

Lemma saved_choice_is_restored_witness :
  let h := mkHook "gpt-4.1-mini" (mkStorage [] false false) in
  (canAccessModelId no_subscription "gpt-4o" = true
   /\ canAccessModelId active "gpt-4o" = true
   /\ denied (localStorage h) = false
   /\ full (localStorage h) = false)
  /\ restore_effect true active
       (mkHook "gpt-4.1-mini"
          (localStorage (handleModelChange no_subscription "gpt-4o" h)))
     = mkHook "gpt-4o" (localStorage (handleModelChange no_subscription "gpt-4o" h)).
Proof.
  intros h.
  assert (H1 : canAccessModelId no_subscription "gpt-4o" = true) by reflexivity.
  assert (H2 : canAccessModelId active "gpt-4o" = true) by reflexivity.
  assert (H3 : denied (localStorage h) = false) by reflexivity.
  assert (H4 : full (localStorage h) = false) by reflexivity.
  split; [tauto|].
  exact (saved_choice_is_restored no_subscription active "gpt-4o" "gpt-4.1-mini" h
           H1 H2 H3 H4).
Defined.

Lemma try_setItem_denied (k v : string) (s : LocalStorage) :
  denied (try_setItem k v s) = denied s.
Proof.
  unfold try_setItem, setItem.
  destruct (denied s || full s); reflexivity.
Qed.

(** X20.  The effect is idempotent: run a second time with the same
    subscription status it changes neither the selection nor the storage,
    for every storage (also one that throws, is full, or holds a stale
    value) and on the server, where there is no window. *)
Theorem restore_effect_idempotent :
  forall (window_defined : bool) (status : SubscriptionStatus) (h : Hook),
    restore_effect window_defined status
      (restore_effect window_defined status h)
    = restore_effect window_defined status h.
Proof.
  intros [|] status h; [|reflexivity].
  destruct (denied (localStorage h)) eqn:Hd.
  { assert (E : restore_effect true status h = h).
    { unfold restore_effect, getItem. rewrite Hd. reflexivity. }
    rewrite E. exact E. }
  assert (Eg : exists sv, getItem STORAGE_KEY_MODEL (localStorage h) = Some sv).
  { unfold getItem. rewrite Hd. eauto. }
  destruct Eg as [sv Eg].
  assert (Hkeep : forall m,
             Actions.truthy (Some m) && canAccessModelId status m = true ->
             getItem STORAGE_KEY_MODEL (localStorage h) = Some (Some m) ->
             restore_effect true status (mkHook m (localStorage h))
             = mkHook m (localStorage h)).
  { intros m U G.
    rewrite (restore_effect_read status (mkHook m (localStorage h)) (Some m) G).
    rewrite U. reflexivity. }
  assert (Hprem : status = active ->
             restore_effect true status
               (mkHook DEFAULT_PREMIUM_MODEL_ID
                  (try_setItem STORAGE_KEY_MODEL DEFAULT_PREMIUM_MODEL_ID
                     (localStorage h)))
             = mkHook DEFAULT_PREMIUM_MODEL_ID
                 (try_setItem STORAGE_KEY_MODEL DEFAULT_PREMIUM_MODEL_ID
                    (localStorage h)) \/
             Actions.truthy sv = true /\ exists m, sv = Some m
                                        /\ canAccessModelId status m = true).
  { intros ->. unfold try_setItem.
    destruct (setItem STORAGE_KEY_MODEL DEFAULT_PREMIUM_MODEL_ID (localStorage h))
      as [s'|] eqn:Es.
    - left.
      rewrite (restore_effect_read active (mkHook _ s') (Some DEFAULT_PREMIUM_MODEL_ID)
                 (getItem_setItem _ _ _ _ Es)).
      reflexivity.
    - destruct sv as [m|].
      + destruct (Actions.truthy (Some m) && canAccessModelId active m) eqn:U.
        * right. apply andb_true_iff in U as [U1 U2]. eauto.
        * left.
          rewrite (restore_effect_read active (mkHook _ (localStorage h)) (Some m) Eg).
          rewrite U. cbn [is_active localStorage]. unfold try_setItem. rewrite Es. reflexivity.
      + left.
        rewrite (restore_effect_read active (mkHook _ (localStorage h)) None Eg).
        cbn [is_active localStorage]. unfold try_setItem. rewrite Es. reflexivity. }
  rewrite (restore_effect_read status h sv Eg).
  destruct sv as [m|].
  - destruct (Actions.truthy (Some m) && canAccessModelId status m) eqn:U.
    + apply Hkeep; assumption.
    + destruct status; cbn [is_active].
      * destruct (Actions.truthy (Some m)) eqn:T.
        -- destruct (removeItem STORAGE_KEY_MODEL (localStorage h)) as [s'|] eqn:Er.
           ++ rewrite (restore_effect_read no_subscription (mkHook _ s') None
                         (getItem_removeItem _ _ _ Er)).
              reflexivity.
           ++ rewrite (restore_effect_read no_subscription h (Some m) Eg).
              rewrite T, U. cbn [is_active localStorage]. rewrite Er. reflexivity.
        -- rewrite (restore_effect_read no_subscription (mkHook _ (localStorage h))
                      (Some m) Eg).
           rewrite T. cbn [andb]. reflexivity.
      * destruct (Hprem eq_refl) as [H|(_ & m' & Em & A)]; [exact H|].
        injection Em as <-. cbn [andb] in U.
        destruct (Actions.truthy (Some m)) eqn:T.
        -- cbn [andb] in U. congruence.
        -- unfold try_setItem.
           destruct (setItem STORAGE_KEY_MODEL DEFAULT_PREMIUM_MODEL_ID (localStorage h))
             as [s'|] eqn:Es.
           ++ rewrite (restore_effect_read active (mkHook _ s')
                         (Some DEFAULT_PREMIUM_MODEL_ID) (getItem_setItem _ _ _ _ Es)).
              reflexivity.
           ++ rewrite (restore_effect_read active (mkHook _ (localStorage h)) (Some m) Eg).
              rewrite T. cbn [andb is_active localStorage]. unfold try_setItem. rewrite Es.
              reflexivity.
  - destruct status; cbn [is_active].
    + rewrite (restore_effect_read no_subscription (mkHook _ (localStorage h)) None Eg).
      reflexivity.
    + destruct (Hprem eq_refl) as [H|(_ & m' & Em & _)]; [exact H | discriminate].
Qed.

End ModelExtras.
(* ================================================================= *)
(** ** Properties of the shown account and of the scope labels *)

Module ShownExtras.

Import AccountSettings Integrations Readings.

Lemma or_else_nonempty (a : option string) (b : string) :
  b <> "" -> or_else a b <> "".
Proof.
  intros Hb. unfold or_else. destruct a as [s|]; [|exact Hb].
  simpl. destruct (String.eqb s "") eqn:E; simpl; [exact Hb|].
  apply String.eqb_neq. exact E.
Qed.

Lemma before_at_local (local domain : string) :
  has_no_at local = true ->
  before_at (local ++ String "@"%char domain) = local.
Proof.
  induction local as [|c local IH]; simpl; [reflexivity|].
  intros H. apply andb_true_iff in H as [Hc Hl].
  apply negb_true_iff in Hc. rewrite Hc, (IH Hl). reflexivity.
Qed.

(** X21.  The name the account page shows is never empty: it starts as
    'Loading...', and whatever getUser answers (no user, no metadata, an
    empty name, no email, an email that starts with '@') fetchUserData puts
    a non-empty name, 'User' when nothing else is there. *)
Theorem shown_name_is_never_empty :
  forall (data_user : option AuthUser) (st : Shown),
    shown_name st <> "" ->
    shown_name (fetchUserData data_user st) <> "".
Proof.
  intros [u|] st H; [|exact H].
  simpl. apply or_else_nonempty, or_else_nonempty. discriminate.
Qed.

Lemma shown_name_is_never_empty_witness :
  let u := mkAuthUser (Some "@example.com") (Some (mkMetadata (Some "") None)) in
  shown_name initial <> ""
  /\ shown_name (fetchUserData (Some u) initial) <> "".
Proof.
  intros u.
  assert (H : shown_name initial <> "") by discriminate.
  split; [exact H|].
  exact (shown_name_is_never_empty (Some u) initial H).
Defined.

(** X22.  For a user whose metadata carries no name (none, or the empty
    string) and whose email is local@domain with a non-empty local part,
    the page shows the local part as the name and the whole address as the
    email. *)
Theorem shown_name_from_email :
  forall (local domain : string) (meta : option UserMetadata) (st : Shown),
    local <> "" ->
    has_no_at local = true ->
    Actions.truthy (match meta with Some m => name m | None => None end) = false ->
    let u := mkAuthUser (Some (local ++ String "@"%char domain)%string) meta in
    shown_name (fetchUserData (Some u) st) = local
    /\ shown_email (fetchUserData (Some u) st) = (local ++ String "@"%char domain)%string.
Proof.
  intros local domain meta st Hne Hno Hmeta u. subst u. simpl.
  rewrite (before_at_local local domain Hno).
  assert (Hl : String.eqb local "" = false) by (apply String.eqb_neq; exact Hne).
  split.
  - unfold or_else at 1.
    destruct (match meta with Some m => name m | None => None end) as [nm|].
    + rewrite Hmeta. unfold or_else. simpl. rewrite Hl. reflexivity.
    + unfold or_else. simpl. rewrite Hl. reflexivity.
  - unfold or_else. simpl.
    destruct local as [|c l]; [contradiction|]. reflexivity.
Qed.

Lemma shown_name_from_email_witness :
  let meta := Some (mkMetadata None (Some "https://lh3.googleusercontent.com/a")) in
  ("ada" <> ""
   /\ has_no_at "ada" = true
   /\ Actions.truthy (match meta with Some m => name m | None => None end) = false)
  /\ shown_name (fetchUserData
                   (Some (mkAuthUser (Some ("ada" ++ String "@"%char "example.com")%string) meta))
                   initial)
     = "ada".
Proof.
  intros meta.
  assert (H1 : "ada" <> "") by discriminate.
  assert (H2 : has_no_at "ada" = true) by reflexivity.
  assert (H3 : Actions.truthy (match meta with Some m => name m | None => None end)
               = false) by reflexivity.
  split; [tauto|].
  exact (proj1 (shown_name_from_email "ada" "example.com" meta initial H1 H2 H3)).
Defined.

Lemma strip_prefix_app (pat s : string) :
  strip_prefix pat (pat ++ s) = Some s.
Proof.
  induction pat as [|c pat IH]; simpl.
  - destruct s; reflexivity.
  - rewrite Ascii.eqb_refl. exact IH.
Qed.

Lemma replace_prefix (pat rep s : string) :
  replace pat rep (pat ++ s) = (rep ++ s)%string.
Proof.
  destruct (pat ++ s)%string as [|c r] eqn:E; simpl;
    rewrite <- E, strip_prefix_app; reflexivity.
Qed.

(** X23.  The label of a granted scope: a scope under
    https://www.googleapis.com/auth/ is shown without that prefix, and
    without a 'userinfo.' that follows it; 'openid' is shown as
    'OpenID (Basic Login)'.  The requested GOOGLE_SCOPES are therefore
    shown as OpenID (Basic Login), email, profile, calendar, drive and
    gmail.modify. *)
Theorem shortScope_strips_prefixes :
  (forall s,
      shortScope ("https://www.googleapis.com/auth/" ++ s)
      = replace "userinfo." "" s)
  /\ (forall s,
        shortScope ("https://www.googleapis.com/auth/userinfo." ++ s) = s)
  /\ map shortScope GOOGLE_SCOPES
     = ["OpenID (Basic Login)"; "email"; "profile"; "calendar"; "drive";
        "gmail.modify"].
Proof.
  assert (H1 : forall s,
             shortScope ("https://www.googleapis.com/auth/" ++ s)
             = replace "userinfo." "" s).
  { intros s. unfold shortScope.
    rewrite (replace_prefix "https://www.googleapis.com/auth/" "" s).
    reflexivity. }
  split; [exact H1|]. split; [|reflexivity].
  intros s.
  change ("https://www.googleapis.com/auth/userinfo." ++ s)%string
    with ("https://www.googleapis.com/auth/" ++ ("userinfo." ++ s))%string.
  rewrite H1. apply (replace_prefix "userinfo." "" s).
Qed.

End ShownExtras.
